(** * IOManager: the reactor coordinator of [src/lib/iomgr.cpp]

    A shallow embedding of the I/O manager (lifecycle state machine,
    descriptor registration, cross-thread messages, least-busy routing) and
    of the per-thread drive submission pool, with the properties the design
    document states about them.

    Conventions.  C++ [int], [size_t] and [uint64_t] values are integers in
    [Z]; where the source does arithmetic on a fixed-width value
    ([msg_sent_count++] on a [uint32_t], [m_expected_ifaces += ...] on a
    [size_t]) the wrap-around is written out.
    A [std::shared_ptr<fd_info>] is an address into [fd_store], so that two
    holders of the same record alias.  The thread buffer [m_thread_ctx] is the
    list of the contexts of all threads, in slot order. *)

From Stdlib Require Import ZArith List Bool Lia.
From stdpp Require Import base option list gmap.

#[local] Open Scope Z_scope.

(** ** Results of calls that may not return *)

(** A call either returns, never returns (it waits on the state condition
    or retries for ever), trips an [assert], or dereferences an end
    iterator. *)
Inductive outcome (A : Type) : Type :=
| Returns (a : A)
| Blocks
| Aborts
| Undefined.

Arguments Returns {A} a.
Arguments Blocks {A}.
Arguments Aborts {A}.
Arguments Undefined {A}.

#[global] Instance outcome_ret : MRet outcome := fun A a => Returns a.

#[global] Instance outcome_bind : MBind outcome := fun A B k m =>
  match m with
  | Returns a => k a
  | Blocks => Blocks
  | Aborts => Aborts
  | Undefined => Undefined
  end.

(** ** Data model *)

(** Modelled from the spec: [enum class iomgr_state] is declared in the absent
    [iomgr.hpp]; the spec has the "enumeration with strict progression"
    below, and [iomgr.cpp] uses these five names. *)
Inductive iomgr_state : Set :=
| waiting_for_interfaces
| waiting_for_threads
| running
| stopping
| stopped.

#[global] Instance iomgr_state_eq_dec : EqDecision iomgr_state.
Proof. solve_decision. Defined.

(** Position of a state along
    [waiting_for_interfaces -> waiting_for_threads -> running -> stopping -> stopped]. *)
Definition state_rank (st : iomgr_state) : nat :=
  match st with
  | waiting_for_interfaces => 0
  | waiting_for_threads => 1
  | running => 2
  | stopping => 3
  | stopped => 4
  end.

(** Modelled from the spec: [enum class iomgr_msg_type] is declared in the
    absent [iomgr_msg.hpp]; these are the tags of the spec's "tagged variant"
    and the ones [iomgr.cpp] sends. *)
Inductive iomgr_msg_type : Set :=
| RESCHEDULE
| RUN_METHOD
| RELINQUISH_IO_THREAD.

#[global] Instance iomgr_msg_type_eq_dec : EqDecision iomgr_msg_type.
Proof. solve_decision. Defined.

(** Address of a descriptor record: what a [std::shared_ptr<fd_info>] or a
    [fd_info*] holds. *)
Definition fd_ptr := nat.

(** [struct fd_info], with the fields [create_fd_info] fills in (the
    declaration itself is not in the sources).  Callbacks, cookies and
    interfaces are opaque handles. *)
Record fd_info : Type := {
  cb : Z;
  is_processing_READ : Z;
  is_processing_WRITE : Z;
  fd : Z;
  ev : Z;
  is_global : bool;
  pri : Z;
  cookie : Z;
  io_interface : Z
}.

(** [io_thread.hpp]: [constexpr size_t MAX_PRI = 10]. *)
Definition MAX_PRI : Z := 10.

(** Modelled from the spec: [struct iomgr_msg] is declared in the absent
    [iomgr_msg.hpp]; a message "carries: target-descriptor handle (optional),
    event mask (int), opaque buffer + size".  [iomgr.cpp] builds messages as
    [iomgr_msg(type)], [iomgr_msg(type, info, event)] and
    [iomgr_msg(type, nullptr, -1, buf, size)]. *)
Record iomgr_msg : Type := {
  m_type : iomgr_msg_type;
  m_fd_info : option fd_ptr;
  m_event : Z;
  m_data_buf : option Z;
  m_data_size : Z
}.

Definition iomgr_msg_of_type (t : iomgr_msg_type) : iomgr_msg :=
  {| m_type := t; m_fd_info := None; m_event := -1; m_data_buf := None; m_data_size := 0 |}.

(** What one [write] of the wakeup token to a message descriptor answers. *)
Inductive write_result : Set :=
| WriteOk
| WriteEAGAIN
| WriteErr (errno : Z).

(** The manager's primitive actions, in the order they happen.  [history]
    below is a ghost record of them; no operation reads it. *)
Inductive action : Type :=
| ActSetState (st : iomgr_state)
| ActIncStop (now : Z)
| ActDecStop (now : Z)
| ActNullTimer
| ActPutMsg (thread_num : Z) (t : iomgr_msg_type)
| ActWrite (thread_num : Z) (r : write_result).

(** [class ioMgrThreadContext] ([io_thread.hpp]).  The last three fields are
    the kernel side of the context: the descriptors attached to its
    multiplexer [m_epollfd], the tokens standing in its message descriptor,
    and what the kernel answers to the coming writes on that descriptor (when
    the list is used up, writes succeed). *)
Record ioMgrThreadContext : Type := {
  m_epollfd : Z;
  m_thread_num : Z;
  m_msg_fd_info : option fd_ptr;
  m_count : Z;
  m_is_io_thread : bool;
  m_is_iomgr_thread : bool;
  m_keep_running : bool;
  m_fd_selector : option (fd_info -> bool);
  m_msg_q : list iomgr_msg;
  epoll_set : gset fd_ptr;
  msg_fd_tokens : Z;
  msg_fd_writes : list write_result
}.

(** Interfaces are opaque handles. *)
Definition IOInterface := Z.

(** A thread made by [sisl::thread_factory("io_thread", &IOManager::run_io_loop,
    this, true, nullptr, nullptr)]: the arguments [run_io_loop] gets. *)
Record io_thread_handle : Type := {
  th_is_iomgr_thread : bool;
  th_fd_selector : option (fd_info -> bool);
  th_msg_handler : option Z
}.

(** [class IOManager]: the members [iomgr.cpp] uses, the store of descriptor
    records and the ghost [history]. *)
Record IOManager : Type := {
  m_state : iomgr_state;
  m_expected_ifaces : Z;
  m_yet_to_start_nthreads : Z;
  m_yet_to_stop_nthreads : Z;
  m_iface_list : list IOInterface;
  m_drive_ifaces : list IOInterface;
  m_default_general_iface : option IOInterface;
  m_default_drive_iface : option IOInterface;
  m_iomgr_threads : list io_thread_handle;
  m_global_timer : option Z;
  m_fd_info_map : gmap Z fd_ptr;
  m_thread_ctx : list ioMgrThreadContext;
  m_common_thread_msg_handler : option Z;
  fd_store : list fd_info;
  history : list action
}.

(** *** Field updates *)

Definition with_m_state (v : iomgr_state) (s : IOManager) : IOManager :=
  {| m_state := v; m_expected_ifaces := m_expected_ifaces s; m_yet_to_start_nthreads :=
     m_yet_to_start_nthreads s; m_yet_to_stop_nthreads := m_yet_to_stop_nthreads s; m_iface_list
     := m_iface_list s; m_drive_ifaces := m_drive_ifaces s; m_default_general_iface :=
     m_default_general_iface s; m_default_drive_iface := m_default_drive_iface s; m_iomgr_threads
     := m_iomgr_threads s; m_global_timer := m_global_timer s; m_fd_info_map := m_fd_info_map s;
     m_thread_ctx := m_thread_ctx s; m_common_thread_msg_handler := m_common_thread_msg_handler
     s; fd_store := fd_store s; history := history s |}.

Definition with_m_expected_ifaces (v : Z) (s : IOManager) : IOManager :=
  {| m_state := m_state s; m_expected_ifaces := v; m_yet_to_start_nthreads :=
     m_yet_to_start_nthreads s; m_yet_to_stop_nthreads := m_yet_to_stop_nthreads s; m_iface_list
     := m_iface_list s; m_drive_ifaces := m_drive_ifaces s; m_default_general_iface :=
     m_default_general_iface s; m_default_drive_iface := m_default_drive_iface s; m_iomgr_threads
     := m_iomgr_threads s; m_global_timer := m_global_timer s; m_fd_info_map := m_fd_info_map s;
     m_thread_ctx := m_thread_ctx s; m_common_thread_msg_handler := m_common_thread_msg_handler
     s; fd_store := fd_store s; history := history s |}.

Definition with_m_yet_to_start_nthreads (v : Z) (s : IOManager) : IOManager :=
  {| m_state := m_state s; m_expected_ifaces := m_expected_ifaces s; m_yet_to_start_nthreads
     := v; m_yet_to_stop_nthreads := m_yet_to_stop_nthreads s; m_iface_list := m_iface_list s;
     m_drive_ifaces := m_drive_ifaces s; m_default_general_iface := m_default_general_iface s;
     m_default_drive_iface := m_default_drive_iface s; m_iomgr_threads := m_iomgr_threads s;
     m_global_timer := m_global_timer s; m_fd_info_map := m_fd_info_map s; m_thread_ctx :=
     m_thread_ctx s; m_common_thread_msg_handler := m_common_thread_msg_handler s; fd_store :=
     fd_store s; history := history s |}.

Definition with_m_yet_to_stop_nthreads (v : Z) (s : IOManager) : IOManager :=
  {| m_state := m_state s; m_expected_ifaces := m_expected_ifaces s; m_yet_to_start_nthreads
     := m_yet_to_start_nthreads s; m_yet_to_stop_nthreads := v; m_iface_list := m_iface_list s;
     m_drive_ifaces := m_drive_ifaces s; m_default_general_iface := m_default_general_iface s;
     m_default_drive_iface := m_default_drive_iface s; m_iomgr_threads := m_iomgr_threads s;
     m_global_timer := m_global_timer s; m_fd_info_map := m_fd_info_map s; m_thread_ctx :=
     m_thread_ctx s; m_common_thread_msg_handler := m_common_thread_msg_handler s; fd_store :=
     fd_store s; history := history s |}.

Definition with_m_iface_list (v : list IOInterface) (s : IOManager) : IOManager :=
  {| m_state := m_state s; m_expected_ifaces := m_expected_ifaces s; m_yet_to_start_nthreads
     := m_yet_to_start_nthreads s; m_yet_to_stop_nthreads := m_yet_to_stop_nthreads s;
     m_iface_list := v; m_drive_ifaces := m_drive_ifaces s; m_default_general_iface :=
     m_default_general_iface s; m_default_drive_iface := m_default_drive_iface s; m_iomgr_threads
     := m_iomgr_threads s; m_global_timer := m_global_timer s; m_fd_info_map := m_fd_info_map s;
     m_thread_ctx := m_thread_ctx s; m_common_thread_msg_handler := m_common_thread_msg_handler
     s; fd_store := fd_store s; history := history s |}.

Definition with_m_drive_ifaces (v : list IOInterface) (s : IOManager) : IOManager :=
  {| m_state := m_state s; m_expected_ifaces := m_expected_ifaces s; m_yet_to_start_nthreads
     := m_yet_to_start_nthreads s; m_yet_to_stop_nthreads := m_yet_to_stop_nthreads s;
     m_iface_list := m_iface_list s; m_drive_ifaces := v; m_default_general_iface :=
     m_default_general_iface s; m_default_drive_iface := m_default_drive_iface s; m_iomgr_threads
     := m_iomgr_threads s; m_global_timer := m_global_timer s; m_fd_info_map := m_fd_info_map s;
     m_thread_ctx := m_thread_ctx s; m_common_thread_msg_handler := m_common_thread_msg_handler
     s; fd_store := fd_store s; history := history s |}.

Definition with_m_default_general_iface (v : option IOInterface) (s : IOManager) : IOManager :=
  {| m_state := m_state s; m_expected_ifaces := m_expected_ifaces s; m_yet_to_start_nthreads
     := m_yet_to_start_nthreads s; m_yet_to_stop_nthreads := m_yet_to_stop_nthreads s;
     m_iface_list := m_iface_list s; m_drive_ifaces := m_drive_ifaces s; m_default_general_iface
     := v; m_default_drive_iface := m_default_drive_iface s; m_iomgr_threads := m_iomgr_threads
     s; m_global_timer := m_global_timer s; m_fd_info_map := m_fd_info_map s; m_thread_ctx :=
     m_thread_ctx s; m_common_thread_msg_handler := m_common_thread_msg_handler s; fd_store :=
     fd_store s; history := history s |}.

Definition with_m_default_drive_iface (v : option IOInterface) (s : IOManager) : IOManager :=
  {| m_state := m_state s; m_expected_ifaces := m_expected_ifaces s; m_yet_to_start_nthreads
     := m_yet_to_start_nthreads s; m_yet_to_stop_nthreads := m_yet_to_stop_nthreads s;
     m_iface_list := m_iface_list s; m_drive_ifaces := m_drive_ifaces s; m_default_general_iface
     := m_default_general_iface s; m_default_drive_iface := v; m_iomgr_threads := m_iomgr_threads
     s; m_global_timer := m_global_timer s; m_fd_info_map := m_fd_info_map s; m_thread_ctx :=
     m_thread_ctx s; m_common_thread_msg_handler := m_common_thread_msg_handler s; fd_store :=
     fd_store s; history := history s |}.

Definition with_m_iomgr_threads (v : list io_thread_handle) (s : IOManager) : IOManager :=
  {| m_state := m_state s; m_expected_ifaces := m_expected_ifaces s; m_yet_to_start_nthreads
     := m_yet_to_start_nthreads s; m_yet_to_stop_nthreads := m_yet_to_stop_nthreads s;
     m_iface_list := m_iface_list s; m_drive_ifaces := m_drive_ifaces s; m_default_general_iface
     := m_default_general_iface s; m_default_drive_iface := m_default_drive_iface s;
     m_iomgr_threads := v; m_global_timer := m_global_timer s; m_fd_info_map := m_fd_info_map s;
     m_thread_ctx := m_thread_ctx s; m_common_thread_msg_handler := m_common_thread_msg_handler
     s; fd_store := fd_store s; history := history s |}.

Definition with_m_global_timer (v : option Z) (s : IOManager) : IOManager :=
  {| m_state := m_state s; m_expected_ifaces := m_expected_ifaces s; m_yet_to_start_nthreads
     := m_yet_to_start_nthreads s; m_yet_to_stop_nthreads := m_yet_to_stop_nthreads s;
     m_iface_list := m_iface_list s; m_drive_ifaces := m_drive_ifaces s; m_default_general_iface
     := m_default_general_iface s; m_default_drive_iface := m_default_drive_iface s;
     m_iomgr_threads := m_iomgr_threads s; m_global_timer := v; m_fd_info_map := m_fd_info_map s;
     m_thread_ctx := m_thread_ctx s; m_common_thread_msg_handler := m_common_thread_msg_handler
     s; fd_store := fd_store s; history := history s |}.

Definition with_m_fd_info_map (v : gmap Z fd_ptr) (s : IOManager) : IOManager :=
  {| m_state := m_state s; m_expected_ifaces := m_expected_ifaces s; m_yet_to_start_nthreads
     := m_yet_to_start_nthreads s; m_yet_to_stop_nthreads := m_yet_to_stop_nthreads s;
     m_iface_list := m_iface_list s; m_drive_ifaces := m_drive_ifaces s; m_default_general_iface
     := m_default_general_iface s; m_default_drive_iface := m_default_drive_iface s;
     m_iomgr_threads := m_iomgr_threads s; m_global_timer := m_global_timer s; m_fd_info_map :=
     v; m_thread_ctx := m_thread_ctx s; m_common_thread_msg_handler :=
     m_common_thread_msg_handler s; fd_store := fd_store s; history := history s |}.

Definition with_m_thread_ctx (v : list ioMgrThreadContext) (s : IOManager) : IOManager :=
  {| m_state := m_state s; m_expected_ifaces := m_expected_ifaces s; m_yet_to_start_nthreads
     := m_yet_to_start_nthreads s; m_yet_to_stop_nthreads := m_yet_to_stop_nthreads s;
     m_iface_list := m_iface_list s; m_drive_ifaces := m_drive_ifaces s; m_default_general_iface
     := m_default_general_iface s; m_default_drive_iface := m_default_drive_iface s;
     m_iomgr_threads := m_iomgr_threads s; m_global_timer := m_global_timer s; m_fd_info_map :=
     m_fd_info_map s; m_thread_ctx := v; m_common_thread_msg_handler :=
     m_common_thread_msg_handler s; fd_store := fd_store s; history := history s |}.

Definition with_m_common_thread_msg_handler (v : option Z) (s : IOManager) : IOManager :=
  {| m_state := m_state s; m_expected_ifaces := m_expected_ifaces s; m_yet_to_start_nthreads
     := m_yet_to_start_nthreads s; m_yet_to_stop_nthreads := m_yet_to_stop_nthreads s;
     m_iface_list := m_iface_list s; m_drive_ifaces := m_drive_ifaces s; m_default_general_iface
     := m_default_general_iface s; m_default_drive_iface := m_default_drive_iface s;
     m_iomgr_threads := m_iomgr_threads s; m_global_timer := m_global_timer s; m_fd_info_map :=
     m_fd_info_map s; m_thread_ctx := m_thread_ctx s; m_common_thread_msg_handler := v; fd_store
     := fd_store s; history := history s |}.

Definition with_fd_store (v : list fd_info) (s : IOManager) : IOManager :=
  {| m_state := m_state s; m_expected_ifaces := m_expected_ifaces s; m_yet_to_start_nthreads
     := m_yet_to_start_nthreads s; m_yet_to_stop_nthreads := m_yet_to_stop_nthreads s;
     m_iface_list := m_iface_list s; m_drive_ifaces := m_drive_ifaces s; m_default_general_iface
     := m_default_general_iface s; m_default_drive_iface := m_default_drive_iface s;
     m_iomgr_threads := m_iomgr_threads s; m_global_timer := m_global_timer s; m_fd_info_map :=
     m_fd_info_map s; m_thread_ctx := m_thread_ctx s; m_common_thread_msg_handler :=
     m_common_thread_msg_handler s; fd_store := v; history := history s |}.

Definition with_history (v : list action) (s : IOManager) : IOManager :=
  {| m_state := m_state s; m_expected_ifaces := m_expected_ifaces s; m_yet_to_start_nthreads
     := m_yet_to_start_nthreads s; m_yet_to_stop_nthreads := m_yet_to_stop_nthreads s;
     m_iface_list := m_iface_list s; m_drive_ifaces := m_drive_ifaces s; m_default_general_iface
     := m_default_general_iface s; m_default_drive_iface := m_default_drive_iface s;
     m_iomgr_threads := m_iomgr_threads s; m_global_timer := m_global_timer s; m_fd_info_map :=
     m_fd_info_map s; m_thread_ctx := m_thread_ctx s; m_common_thread_msg_handler :=
     m_common_thread_msg_handler s; fd_store := fd_store s; history := v |}.
Definition ctx_with_m_msg_fd_info (v : option fd_ptr) (c : ioMgrThreadContext) : ioMgrThreadContext :=
  {| m_epollfd := m_epollfd c; m_thread_num := m_thread_num c; m_msg_fd_info := v; m_count :=
     m_count c; m_is_io_thread := m_is_io_thread c; m_is_iomgr_thread := m_is_iomgr_thread c;
     m_keep_running := m_keep_running c; m_fd_selector := m_fd_selector c; m_msg_q := m_msg_q c;
     epoll_set := epoll_set c; msg_fd_tokens := msg_fd_tokens c; msg_fd_writes := msg_fd_writes c
     |}.

Definition ctx_with_m_is_io_thread (v : bool) (c : ioMgrThreadContext) : ioMgrThreadContext :=
  {| m_epollfd := m_epollfd c; m_thread_num := m_thread_num c; m_msg_fd_info := m_msg_fd_info
     c; m_count := m_count c; m_is_io_thread := v; m_is_iomgr_thread := m_is_iomgr_thread c;
     m_keep_running := m_keep_running c; m_fd_selector := m_fd_selector c; m_msg_q := m_msg_q c;
     epoll_set := epoll_set c; msg_fd_tokens := msg_fd_tokens c; msg_fd_writes := msg_fd_writes c
     |}.

Definition ctx_with_m_is_iomgr_thread (v : bool) (c : ioMgrThreadContext) : ioMgrThreadContext :=
  {| m_epollfd := m_epollfd c; m_thread_num := m_thread_num c; m_msg_fd_info := m_msg_fd_info
     c; m_count := m_count c; m_is_io_thread := m_is_io_thread c; m_is_iomgr_thread := v;
     m_keep_running := m_keep_running c; m_fd_selector := m_fd_selector c; m_msg_q := m_msg_q c;
     epoll_set := epoll_set c; msg_fd_tokens := msg_fd_tokens c; msg_fd_writes := msg_fd_writes c
     |}.

Definition ctx_with_m_keep_running (v : bool) (c : ioMgrThreadContext) : ioMgrThreadContext :=
  {| m_epollfd := m_epollfd c; m_thread_num := m_thread_num c; m_msg_fd_info := m_msg_fd_info
     c; m_count := m_count c; m_is_io_thread := m_is_io_thread c; m_is_iomgr_thread :=
     m_is_iomgr_thread c; m_keep_running := v; m_fd_selector := m_fd_selector c; m_msg_q :=
     m_msg_q c; epoll_set := epoll_set c; msg_fd_tokens := msg_fd_tokens c; msg_fd_writes :=
     msg_fd_writes c |}.

Definition ctx_with_m_fd_selector (v : option (fd_info -> bool)) (c : ioMgrThreadContext) : ioMgrThreadContext :=
  {| m_epollfd := m_epollfd c; m_thread_num := m_thread_num c; m_msg_fd_info := m_msg_fd_info
     c; m_count := m_count c; m_is_io_thread := m_is_io_thread c; m_is_iomgr_thread :=
     m_is_iomgr_thread c; m_keep_running := m_keep_running c; m_fd_selector := v; m_msg_q :=
     m_msg_q c; epoll_set := epoll_set c; msg_fd_tokens := msg_fd_tokens c; msg_fd_writes :=
     msg_fd_writes c |}.

Definition ctx_with_m_msg_q (v : list iomgr_msg) (c : ioMgrThreadContext) : ioMgrThreadContext :=
  {| m_epollfd := m_epollfd c; m_thread_num := m_thread_num c; m_msg_fd_info := m_msg_fd_info
     c; m_count := m_count c; m_is_io_thread := m_is_io_thread c; m_is_iomgr_thread :=
     m_is_iomgr_thread c; m_keep_running := m_keep_running c; m_fd_selector := m_fd_selector c;
     m_msg_q := v; epoll_set := epoll_set c; msg_fd_tokens := msg_fd_tokens c; msg_fd_writes :=
     msg_fd_writes c |}.

Definition ctx_with_epoll_set (v : gset fd_ptr) (c : ioMgrThreadContext) : ioMgrThreadContext :=
  {| m_epollfd := m_epollfd c; m_thread_num := m_thread_num c; m_msg_fd_info := m_msg_fd_info
     c; m_count := m_count c; m_is_io_thread := m_is_io_thread c; m_is_iomgr_thread :=
     m_is_iomgr_thread c; m_keep_running := m_keep_running c; m_fd_selector := m_fd_selector c;
     m_msg_q := m_msg_q c; epoll_set := v; msg_fd_tokens := msg_fd_tokens c; msg_fd_writes :=
     msg_fd_writes c |}.

Definition ctx_with_msg_fd_tokens (v : Z) (c : ioMgrThreadContext) : ioMgrThreadContext :=
  {| m_epollfd := m_epollfd c; m_thread_num := m_thread_num c; m_msg_fd_info := m_msg_fd_info
     c; m_count := m_count c; m_is_io_thread := m_is_io_thread c; m_is_iomgr_thread :=
     m_is_iomgr_thread c; m_keep_running := m_keep_running c; m_fd_selector := m_fd_selector c;
     m_msg_q := m_msg_q c; epoll_set := epoll_set c; msg_fd_tokens := v; msg_fd_writes :=
     msg_fd_writes c |}.

Definition ctx_with_msg_fd_writes (v : list write_result) (c : ioMgrThreadContext) : ioMgrThreadContext :=
  {| m_epollfd := m_epollfd c; m_thread_num := m_thread_num c; m_msg_fd_info := m_msg_fd_info
     c; m_count := m_count c; m_is_io_thread := m_is_io_thread c; m_is_iomgr_thread :=
     m_is_iomgr_thread c; m_keep_running := m_keep_running c; m_fd_selector := m_fd_selector c;
     m_msg_q := m_msg_q c; epoll_set := epoll_set c; msg_fd_tokens := msg_fd_tokens c;
     msg_fd_writes := v |}.

(** ** The thread buffer and the contexts in it *)

(** [sisl::ThreadBuffer::access_all_threads]: the callback visits every
    context in slot order; [a] is what the lambda captures by reference. *)
Fixpoint access_all_threads {A : Type}
    (f : ioMgrThreadContext -> A -> ioMgrThreadContext * A)
    (ctxs : list ioMgrThreadContext) (a : A) : list ioMgrThreadContext * A :=
  match ctxs with
  | [] => ([], a)
  | c :: rest =>
      let '(c', a') := f c a in
      let '(rest', a'') := access_all_threads f rest a' in
      (c' :: rest', a'')
  end.

(** [sisl::ThreadBuffer::access_specific_thread]: the callback visits the
    context of thread [thread_num], if there is one. *)
Fixpoint access_specific_thread {A : Type} (thread_num : Z)
    (f : ioMgrThreadContext -> A -> ioMgrThreadContext * A)
    (ctxs : list ioMgrThreadContext) (a : A) : list ioMgrThreadContext * A :=
  match ctxs with
  | [] => ([], a)
  | c :: rest =>
      if decide (m_thread_num c = thread_num) then
        let '(c', a') := f c a in (c' :: rest, a')
      else
        let '(rest', a') := access_specific_thread thread_num f rest a in
        (c :: rest', a')
  end.

(** A context as its default member initializers leave it. *)
Definition new_thread_context (thread_num : Z) : ioMgrThreadContext :=
  {| m_epollfd := -1; m_thread_num := thread_num; m_msg_fd_info := None; m_count := 0;
     m_is_io_thread := false; m_is_iomgr_thread := false; m_keep_running := true;
     m_fd_selector := None; m_msg_q := []; epoll_set := ∅; msg_fd_tokens := 0;
     msg_fd_writes := [] |}.

Definition has_thread (thread_num : Z) (ctxs : list ioMgrThreadContext) : bool :=
  existsb (fun c => bool_decide (m_thread_num c = thread_num)) ctxs.

(** [m_thread_ctx->...]: the calling thread's own context, made on first use. *)
Definition thread_local (self : Z) (ctxs : list ioMgrThreadContext)
    : list ioMgrThreadContext :=
  if has_thread self ctxs then ctxs else ctxs ++ [new_thread_context self].

(** Modelled from the spec: [ioMgrThreadContext::is_io_thread] is declared in
    [io_thread.hpp] and defined in the absent [io_thread.cpp]; the spec has
    "[is_io_thread] (participating in the loop)". *)
Definition is_io_thread (c : ioMgrThreadContext) : bool := m_is_io_thread c.

(** Modelled from the spec: [is_fd_addable] (absent [io_thread.cpp]); the spec
    has "every io thread that accepts it (via its selector)" and an "optional
    descriptor selector predicate". *)
Definition is_fd_addable (info : fd_info) (c : ioMgrThreadContext) : bool :=
  match m_fd_selector c with
  | None => true
  | Some sel => sel info
  end.

(** Modelled from the spec: [add_fd_to_thread] (absent [io_thread.cpp]) "adds
    to the multiplexer with the requested event mask". *)
Definition add_fd_to_thread (p : fd_ptr) (c : ioMgrThreadContext) : ioMgrThreadContext :=
  ctx_with_epoll_set ({[p]} ∪ epoll_set c) c.

(** Modelled from the spec: [remove_fd_from_thread] (absent [io_thread.cpp])
    "removes from the multiplexer". *)
Definition remove_fd_from_thread (p : fd_ptr) (c : ioMgrThreadContext)
    : ioMgrThreadContext :=
  ctx_with_epoll_set (epoll_set c ∖ {[p]}) c.

(** Modelled from the spec: [put_msg] (absent [io_thread.cpp]) "enqueues into
    the bounded queue"; the bound is not given and the queue has room. *)
Definition put_msg (msg : iomgr_msg) (c : ioMgrThreadContext) : ioMgrThreadContext :=
  ctx_with_m_msg_q (m_msg_q c ++ [msg]) c.

(** ** State, counters and the record store *)

Definition record_action (a : action) (s : IOManager) : IOManager :=
  with_history (history s ++ [a]) s.

(** Modelled from the spec: [get_state] is declared in the absent
    [iomgr.hpp]; it reads the "I/O Manager State". *)
Definition get_state (s : IOManager) : iomgr_state := m_state s.

(** Modelled from the spec: [set_state] is declared in the absent
    [iomgr.hpp]; the manager "transitions to" the state given. *)
Definition set_state (st : iomgr_state) (s : IOManager) : IOManager :=
  record_action (ActSetState st) (with_m_state st s).

(** Modelled from the spec: [set_state_and_notify] is declared in the absent
    [iomgr.hpp]; it sets the state and wakes the calls that "block on the
    state condition" ([wait_until] below looks at the state after every step
    of another thread). *)
Definition set_state_and_notify (st : iomgr_state) (s : IOManager) : IOManager :=
  set_state st s.

(** Modelled from the spec: the counter class of [m_yet_to_stop_nthreads] is
    not in the sources; [stop] "pre-increments [yet_to_stop_nthreads] by
    one". *)
Definition yet_to_stop_increment (s : IOManager) : IOManager :=
  let v := m_yet_to_stop_nthreads s + 1 in
  record_action (ActIncStop v) (with_m_yet_to_stop_nthreads v s).

(** Modelled from the spec: [decrement_testz] of the same counter class,
    "decrement-and-test the counter": it decrements, and answers whether zero
    was reached. *)
Definition yet_to_stop_decrement_testz (s : IOManager) : bool * IOManager :=
  let v := m_yet_to_stop_nthreads s - 1 in
  (bool_decide (v = 0), record_action (ActDecStop v) (with_m_yet_to_stop_nthreads v s)).

(** Modelled from the spec: [decrement_testz] on [m_yet_to_start_nthreads],
    the other of the "two decrementing counters". *)
Definition yet_to_start_decrement_testz (s : IOManager) : bool * IOManager :=
  let v := m_yet_to_start_nthreads s - 1 in
  (bool_decide (v = 0), with_m_yet_to_start_nthreads v s).

(** Modelled from the spec: [inbuilt_interface_count] is declared in the
    absent [iomgr.hpp]; [start] makes one built-in interface and the spec's
    first scenario has [start(0, 0)] reach [running] once it is registered. *)
Definition inbuilt_interface_count : Z := 1.

(** [std::make_shared<fd_info>()]: a new record at a new address. *)
Definition store_alloc (x : fd_info) (s : IOManager) : fd_ptr * IOManager :=
  (length (fd_store s), with_fd_store (fd_store s ++ [x]) s).

(** [p->field = ...] *)
Definition store_write (p : fd_ptr) (f : fd_info -> fd_info) (s : IOManager) : IOManager :=
  with_fd_store (alter f p (fd_store s)) s.

(** [*p]; a null or dangling pointer has no record behind it. *)
Definition deref (p : fd_ptr) (s : IOManager) : outcome fd_info :=
  match fd_store s !! p with
  | Some x => Returns x
  | None => Undefined
  end.

Definition set_is_global (b : bool) (x : fd_info) : fd_info :=
  {| cb := cb x; is_processing_READ := is_processing_READ x;
     is_processing_WRITE := is_processing_WRITE x; fd := fd x; ev := ev x;
     is_global := b; pri := pri x; cookie := cookie x; io_interface := io_interface x |}.

(** [IOManager::create_fd_info] *)
Definition create_fd_info (iface : IOInterface) (fd0 cb0 ev0 pri0 cookie0 : Z)
    (s : IOManager) : fd_ptr * IOManager :=
  store_alloc
    {| cb := cb0; is_processing_READ := 0; is_processing_WRITE := 0; fd := fd0; ev := ev0;
       is_global := false; pri := pri0; cookie := cookie0; io_interface := iface |} s.

(** ** Startup *)

Definition io_thread : io_thread_handle :=
  {| th_is_iomgr_thread := true; th_fd_selector := None; th_msg_handler := None |}.

(** The loop [for (auto i = 0; i < nthreads; i++) m_iomgr_threads.push_back(...)],
    with [n] the number of rounds left. *)
Fixpoint spawn_io_threads (n : nat) (s : IOManager) : IOManager :=
  match n with
  | O => s
  | S n' => spawn_io_threads n' (with_m_iomgr_threads (m_iomgr_threads s ++ [io_thread]) s)
  end.

(** [IOManager::add_interface] *)
Definition add_interface (iface : IOInterface) (s : IOManager) : IOManager :=
  let s := with_m_iface_list (m_iface_list s ++ [iface]) s in
  let iface_count := Z.of_nat (length (m_iface_list s)) in
  if decide (iface_count = m_expected_ifaces s) then
    let nthreads := m_yet_to_start_nthreads s in
    if decide (nthreads <> 0) then
      let s := set_state_and_notify waiting_for_threads s in
      spawn_io_threads (Z.to_nat nthreads) s
    else
      set_state_and_notify running s
  else s.

(** [IOManager::add_drive_interface] *)
Definition add_drive_interface (iface : IOInterface) (default_iface : bool)
    (s : IOManager) : IOManager :=
  let s := add_interface iface s in
  let s := with_m_drive_ifaces (m_drive_ifaces s ++ [iface]) s in
  if default_iface then with_m_default_drive_iface (Some iface) s else s.

Definition wrap64 (z : Z) : Z := z mod 2 ^ 64.

(** [IOManager::start]; [default_iface] is the interface
    [std::make_shared<DefaultIOInterface>()] makes. *)
Definition start (expected_custom_ifaces num_threads : Z) (handler : option Z)
    (default_iface : IOInterface) (s : IOManager) : IOManager :=
  let s := with_m_expected_ifaces (wrap64 (m_expected_ifaces s + expected_custom_ifaces)) s in
  let s := with_m_yet_to_start_nthreads num_threads s in
  let s := with_m_common_thread_msg_handler handler s in
  let s := set_state waiting_for_interfaces s in
  let s := with_m_default_general_iface (Some default_iface) s in
  add_interface default_iface s.

(** [IOManager::io_thread_started] *)
Definition io_thread_started (is_iomgr_thread : bool) (s : IOManager) : IOManager :=
  let s := yet_to_stop_increment s in
  if is_iomgr_thread then
    let '(z, s) := yet_to_start_decrement_testz s in
    if z then set_state_and_notify running s else s
  else s.

(** [IOManager::io_thread_stopped] *)
Definition io_thread_stopped (s : IOManager) : IOManager :=
  let '(z, s) := yet_to_stop_decrement_testz s in
  if z then set_state_and_notify stopped s else s.

(** ** Messages *)

Definition wrap32 (z : Z) : Z := z mod 2 ^ 32.

(** The loop [while (0 > write(fd, &temp, sizeof(uint64_t)) && errno == EAGAIN);]
    against the kernel's coming answers: the answer that ends the loop, the
    answers left, and the writes made. *)
Fixpoint write_token (thread_num : Z) (answers : list write_result)
    : write_result * list write_result * list action :=
  match answers with
  | [] => (WriteOk, [], [ActWrite thread_num WriteOk])
  | WriteEAGAIN :: rest =>
      let '(r, rest', acts) := write_token thread_num rest in
      (r, rest', ActWrite thread_num WriteEAGAIN :: acts)
  | r :: rest => (r, rest, [ActWrite thread_num r])
  end.

(** A thread [send_msg] delivers to: it has a message descriptor and is
    marked [m_is_io_thread]. *)
Definition msg_eligible (c : ioMgrThreadContext) : bool :=
  bool_decide (is_Some (m_msg_fd_info c)) && m_is_io_thread c.

(** The body of the two lambdas of [send_msg]; the accumulator is
    [msg_sent_count] (a [uint32_t]) and the actions made so far. *)
Definition send_msg_visit (msg : iomgr_msg) (c : ioMgrThreadContext)
    (acc : Z * list action) : ioMgrThreadContext * (Z * list action) :=
  let '(msg_sent_count, acts) := acc in
  if negb (bool_decide (is_Some (m_msg_fd_info c))) || negb (m_is_io_thread c) then (c, acc)
  else
    let c := put_msg msg c in
    let '(r, rest, writes) := write_token (m_thread_num c) (msg_fd_writes c) in
    let tokens := match r with WriteOk => msg_fd_tokens c + 1 | _ => msg_fd_tokens c end in
    let c := ctx_with_msg_fd_writes rest (ctx_with_msg_fd_tokens tokens c) in
    (c, (wrap32 (msg_sent_count + 1),
         acts ++ ActPutMsg (m_thread_num c) (m_type msg) :: writes)).

(** [IOManager::send_msg] *)
Definition send_msg (thread_num : Z) (msg : iomgr_msg) (s : IOManager) : Z * IOManager :=
  let '(ctxs, (msg_sent_count, acts)) :=
    if decide (thread_num = -1) then
      access_all_threads (send_msg_visit msg) (m_thread_ctx s) (0, [])
    else
      access_specific_thread thread_num (send_msg_visit msg) (m_thread_ctx s) (0, []) in
  (msg_sent_count, with_history (history s ++ acts) (with_m_thread_ctx ctxs s)).

Definition UINTMAX_MAX : Z := 2 ^ 64 - 1.

(** The lambda of [find_least_busy_thread_id]; the accumulator is
    [(min_id, min_cnt)]. *)
Definition least_busy_visit (c : ioMgrThreadContext) (acc : Z * Z)
    : ioMgrThreadContext * (Z * Z) :=
  let '(min_id, min_cnt) := acc in
  if negb (is_io_thread c) then (c, acc)
  else if m_count c <? min_cnt then (c, (m_thread_num c, m_count c))
  else (c, acc).

(** [IOManager::find_least_busy_thread_id] *)
Definition find_least_busy_thread_id (s : IOManager) : Z :=
  fst (snd (access_all_threads least_busy_visit (m_thread_ctx s) (0, UINTMAX_MAX))).

(** ** What the other threads do *)

(** The steps of the reactor threads that the manager's calls can observe:
    a thread enters its event loop, or leaves it. *)
Inductive env_event : Type :=
| ThreadStarts (thread_num : Z) (is_iomgr_thread : bool)
    (fd_selector : option (fd_info -> bool)) (msg_fd : Z)
| ThreadStops (thread_num : Z).

Definition EPOLLIN : Z := 1.

Definition selector_accepts (sel : option (fd_info -> bool)) (store : list fd_info)
    (p : fd_ptr) : bool :=
  match store !! p, sel with
  | Some info, Some f => f info
  | Some _, None => true
  | None, _ => false
  end.

(** Modelled from the spec: [ioMgrThreadContext::run] and [iothread_init]
    (absent [io_thread.cpp]): the thread "creates the message-notification
    descriptor", "registers the message descriptor with the multiplexer with
    level-triggered read interest", attaches "each global descriptor in the
    manager whose selector accepts this thread", and "notifies the manager via
    [io_thread_started]". *)
Definition thread_starts (thread_num : Z) (is_iomgr_thread : bool)
    (sel : option (fd_info -> bool)) (msg_fd : Z) (s : IOManager) : IOManager :=
  let '(p, s) := create_fd_info 0 msg_fd 0 EPOLLIN 0 0 s in
  let globals := List.map snd (map_to_list (m_fd_info_map s)) in
  let accepted := List.filter (selector_accepts sel (fd_store s)) globals in
  let init (c : ioMgrThreadContext) (_ : unit) :=
    (ctx_with_epoll_set ({[p]} ∪ list_to_set accepted ∪ epoll_set c)
       (ctx_with_m_msg_fd_info (Some p)
          (ctx_with_m_fd_selector sel
             (ctx_with_m_keep_running true
                (ctx_with_m_is_iomgr_thread is_iomgr_thread
                   (ctx_with_m_is_io_thread true c))))), tt) in
  let '(ctxs, _) :=
    access_specific_thread thread_num init (thread_local thread_num (m_thread_ctx s)) tt in
  io_thread_started is_iomgr_thread (with_m_thread_ctx ctxs s).

(** Modelled from the spec: the exit of the event loop (absent
    [io_thread.cpp]): [keep_running] is false, the thread no longer takes part
    in the loop, and it "calls the manager's [io_thread_stopped]". *)
Definition thread_stops (thread_num : Z) (s : IOManager) : IOManager :=
  let leave (c : ioMgrThreadContext) (_ : unit) :=
    (ctx_with_m_keep_running false (ctx_with_m_is_io_thread false c), tt) in
  let '(ctxs, _) := access_specific_thread thread_num leave (m_thread_ctx s) tt in
  io_thread_stopped (with_m_thread_ctx ctxs s).

Definition env_step (e : env_event) (s : IOManager) : IOManager :=
  match e with
  | ThreadStarts n b sel msg_fd => thread_starts n b sel msg_fd s
  | ThreadStops n => thread_stops n s
  end.

Definition run_env (env : list env_event) (s : IOManager) : IOManager :=
  fold_left (fun s e => env_step e s) env s.

(** Modelled from the spec: the wait on the state condition behind
    [wait_to_be_ready] and [wait_to_be_stopped] (absent [iomgr.hpp]).  The
    caller sleeps while the other threads take the steps of [env], one at a
    time, and wakes at the first state that satisfies [ready]; when [env] is
    used up and the condition still fails, nothing will wake it. *)
Fixpoint wait_until (ready : IOManager -> bool) (env : list env_event) (s : IOManager)
    : outcome IOManager :=
  if ready s then Returns s
  else match env with
       | [] => Blocks
       | e :: env' => wait_until ready env' (env_step e s)
       end.

(** Modelled from the spec: [wait_to_be_ready] (absent [iomgr.hpp]) "waits
    until state == [running]". *)
Definition wait_to_be_ready (env : list env_event) (s : IOManager) : outcome IOManager :=
  wait_until (fun s => bool_decide (get_state s = running)) env s.

(** Modelled from the spec: [wait_to_be_stopped] (absent [iomgr.hpp]): "block
    on the state condition" until the state is [stopped]. *)
Definition wait_to_be_stopped (env : list env_event) (s : IOManager) : outcome IOManager :=
  wait_until (fun s => bool_decide (get_state s = stopped)) env s.

(** ** Descriptors *)

(** [std::map::insert]: an entry already under the key stays. *)
Definition map_insert_new (k : Z) (p : fd_ptr) (m : gmap Z fd_ptr) : gmap Z fd_ptr :=
  match m !! k with
  | Some _ => m
  | None => <[k:=p]> m
  end.

(** [IOManager::_add_fd], called on thread [self]; [env] is what the other
    threads do while the call waits. *)
Definition _add_fd (env : list env_event) (self : Z) (iface : IOInterface)
    (fd0 cb0 iomgr_ev pri0 cookie0 : Z) (is_per_thread_fd : bool) (s : IOManager)
    : outcome (fd_ptr * IOManager) :=
  s ← (if negb is_per_thread_fd && negb (bool_decide (get_state s = running))
       then wait_to_be_ready env s else Returns s);
  let '(finfo, s) := create_fd_info iface fd0 cb0 iomgr_ev pri0 cookie0 s in
  let s := store_write finfo (set_is_global (negb is_per_thread_fd)) s in
  info ← deref finfo s;
  if is_per_thread_fd then
    let '(ctxs, _) :=
      access_specific_thread self
        (fun c (_ : unit) =>
           (if is_fd_addable info c then add_fd_to_thread finfo c else c, tt))
        (thread_local self (m_thread_ctx s)) tt in
    Returns (finfo, with_m_thread_ctx ctxs s)
  else
    let '(ctxs, _) :=
      access_all_threads
        (fun c (_ : unit) =>
           (if is_io_thread c && is_fd_addable info c then add_fd_to_thread finfo c else c,
            tt))
        (m_thread_ctx s) tt in
    let s := with_m_thread_ctx ctxs s in
    Returns (finfo, with_m_fd_info_map (map_insert_new fd0 finfo (m_fd_info_map s)) s).

(** [IOManager::remove_fd], called on thread [self]; [iomgr_ctx] is the
    thread whose context the caller passes, if any. *)
Definition remove_fd (self : Z) (iface : IOInterface) (info : fd_ptr)
    (iomgr_ctx : option Z) (s : IOManager) : outcome IOManager :=
  let state := get_state s in
  if negb (bool_decide (state = running)) && negb (bool_decide (state = stopping)) then
    Returns s
  else
    i ← deref info s;
    if is_global i then
      let '(ctxs, _) :=
        access_all_threads
          (fun c (_ : unit) =>
             (if is_io_thread c then remove_fd_from_thread info c else c, tt))
          (m_thread_ctx s) tt in
      let s := with_m_thread_ctx ctxs s in
      Returns (with_m_fd_info_map (delete (fd i) (m_fd_info_map s)) s)
    else
      let '(ctxs, _) :=
        match iomgr_ctx with
        | Some n =>
            access_specific_thread n
              (fun c (_ : unit) => (remove_fd_from_thread info c, tt)) (m_thread_ctx s) tt
        | None =>
            access_specific_thread self
              (fun c (_ : unit) => (remove_fd_from_thread info c, tt))
              (thread_local self (m_thread_ctx s)) tt
        end in
      Returns (with_m_thread_ctx ctxs s).

(** [m_fd_info_map.find(fd)]: the entry under [fd], or the end iterator. *)
Definition map_find (k : Z) (m : gmap Z fd_ptr) : option (Z * fd_ptr) :=
  match m !! k with
  | Some p => Some (k, p)
  | None => None
  end.

(** [IOManager::fd_to_info]: the iterator is read without a test against
    [end()]. *)
Definition fd_to_info (fd0 : Z) (s : IOManager) : outcome fd_ptr :=
  match map_find fd0 (m_fd_info_map s) with
  | None => Undefined
  | Some it => if decide (fst it = fd0) then Returns (snd it) else Aborts
  end.

(** ** Routing to the least busy thread *)

(** [IOManager::send_to_least_busy_thread].  Round [i] of the loop selects a
    target, the other threads take the steps of the [i]-th list of [envs], and
    the message is sent; after the last list the other threads stand still. *)
Fixpoint send_to_least_busy_thread (envs : list (list env_event)) (msg : iomgr_msg)
    (s : IOManager) : outcome IOManager :=
  let min_id := find_least_busy_thread_id s in
  match envs with
  | [] =>
      let '(n, s') := send_msg min_id msg s in
      if decide (n = 1) then Returns s' else Blocks
  | env :: rest =>
      let '(n, s') := send_msg min_id msg (run_env env s) in
      if decide (n = 1) then Returns s' else send_to_least_busy_thread rest msg s'
  end.

(** [IOManager::fd_reschedule(fd_info*, uint32_t)] *)
Definition fd_reschedule (envs : list (list env_event)) (info : fd_ptr) (event : Z)
    (s : IOManager) : outcome IOManager :=
  let msg := {| m_type := RESCHEDULE; m_fd_info := Some info; m_event := event;
                m_data_buf := None; m_data_size := 0 |} in
  send_to_least_busy_thread envs msg s.

(** [IOManager::fd_reschedule(int, uint32_t)] *)
Definition fd_reschedule_fd (envs : list (list env_event)) (fd0 : Z) (event : Z)
    (s : IOManager) : outcome IOManager :=
  info ← fd_to_info fd0 s;
  fd_reschedule envs info event s.

(** [IOManager::run_in_io_thread]; [run_method] is the boxed callable and
    [size] is [sizeof(run_method_t)]. *)
Definition run_in_io_thread (envs : list (list env_event)) (run_method size : Z)
    (s : IOManager) : outcome IOManager :=
  let msg := {| m_type := RUN_METHOD; m_fd_info := None; m_event := -1;
                m_data_buf := Some run_method; m_data_size := size |} in
  send_to_least_busy_thread envs msg s.

(** ** Shutdown *)

(** [IOManager::stop].  [env1] is what the other threads do between the
    broadcast and the decrement, [env2] what they do while [stop] waits.
    Joining the manager's threads changes nothing the model records. *)
Definition stop (env1 env2 : list env_event) (s : IOManager) : outcome IOManager :=
  let s := set_state stopping s in
  let s := yet_to_stop_increment s in
  let '(_, s) := send_msg (-1) (iomgr_msg_of_type RELINQUISH_IO_THREAD) s in
  let s := record_action ActNullTimer (with_m_global_timer None s) in
  let s := run_env env1 s in
  let '(z, s) := yet_to_stop_decrement_testz s in
  s ← (if z then Returns (set_state stopped s) else wait_to_be_stopped env2 s);
  let s := with_m_iomgr_threads [] s in
  let s := with_m_yet_to_start_nthreads 0 s in
  let s := with_m_expected_ifaces inbuilt_interface_count s in
  let s := with_m_drive_ifaces [] s in
  let s := with_m_iface_list [] s in
  if decide (get_state s = stopped) then Returns s else Aborts.

(** Modelled from the spec: the members' initial values are in the absent
    [iomgr.hpp]; a manager that was never started is the one [stop] leaves
    (expected count [inbuilt_interface_count], no threads to start, nothing
    registered).  [start] overwrites the state before anything reads it. *)
Definition IOManager_new : IOManager :=
  {| m_state := stopped; m_expected_ifaces := inbuilt_interface_count;
     m_yet_to_start_nthreads := 0; m_yet_to_stop_nthreads := 0; m_iface_list := [];
     m_drive_ifaces := []; m_default_general_iface := None; m_default_drive_iface := None;
     m_iomgr_threads := []; m_global_timer := None; m_fd_info_map := ∅; m_thread_ctx := [];
     m_common_thread_msg_handler := None; fd_store := []; history := [] |}.

(** ** The manager's interface as a whole *)

Inductive mgr_op : Type :=
| OpStart (expected_custom_ifaces num_threads : Z) (handler : option Z)
    (default_iface : IOInterface)
| OpStop (env1 env2 : list env_event)
| OpAddInterface (iface : IOInterface)
| OpAddDriveInterface (iface : IOInterface) (default_iface : bool)
| OpAddFd (env : list env_event) (self : Z) (iface : IOInterface)
    (fd0 cb0 iomgr_ev pri0 cookie0 : Z) (is_per_thread_fd : bool)
| OpRemoveFd (self : Z) (iface : IOInterface) (info : fd_ptr) (iomgr_ctx : option Z)
| OpFdRescheduleFd (envs : list (list env_event)) (fd0 event : Z)
| OpFdReschedule (envs : list (list env_event)) (info : fd_ptr) (event : Z)
| OpRunInIoThread (envs : list (list env_event)) (run_method size : Z)
| OpSendMsg (thread_num : Z) (msg : iomgr_msg)
| OpEnv (e : env_event).

Definition run_op (op : mgr_op) (s : IOManager) : outcome IOManager :=
  match op with
  | OpStart e n h d => Returns (start e n h d s)
  | OpStop env1 env2 => stop env1 env2 s
  | OpAddInterface i => Returns (add_interface i s)
  | OpAddDriveInterface i d => Returns (add_drive_interface i d s)
  | OpAddFd env self i f c e p k b => r ← _add_fd env self i f c e p k b s; Returns (snd r)
  | OpRemoveFd self i info ctx => remove_fd self i info ctx s
  | OpFdRescheduleFd envs f e => fd_reschedule_fd envs f e s
  | OpFdReschedule envs info e => fd_reschedule envs info e s
  | OpRunInIoThread envs m sz => run_in_io_thread envs m sz s
  | OpSendMsg n msg => Returns (snd (send_msg n msg s))
  | OpEnv e => Returns (env_step e s)
  end.

(** The operations one after the other; the run ends where one of them does
    not return. *)
Fixpoint run_ops (ops : list mgr_op) (s : IOManager) : outcome IOManager :=
  match ops with
  | [] => Returns s
  | op :: rest => s' ← run_op op s; run_ops rest s'
  end.

(** ** Notions the properties are stated with *)

(** What [access_specific_thread n] does with a callback that captures
    nothing: the first context numbered [n] is replaced, the others stay. *)
Fixpoint update_first (n : Z) (g : ioMgrThreadContext -> ioMgrThreadContext)
    (ctxs : list ioMgrThreadContext) : list ioMgrThreadContext :=
  match ctxs with
  | [] => []
  | c :: rest =>
      if decide (m_thread_num c = n) then g c :: rest else c :: update_first n g rest
  end.

(** Every record of [s] is still in [s'], at its address and unchanged. *)
Definition store_kept (s s' : IOManager) : Prop := fd_store s `prefix_of` fd_store s'.

(** The record [_add_fd] leaves behind the pointer it returns. *)
Definition added_fd_info (iface : IOInterface) (fd0 cb0 ev0 pri0 cookie0 : Z)
    (is_per_thread_fd : bool) : fd_info :=
  {| cb := cb0; is_processing_READ := 0; is_processing_WRITE := 0; fd := fd0; ev := ev0;
     is_global := negb is_per_thread_fd; pri := pri0; cookie := cookie0;
     io_interface := iface |}.

(** The states the manager goes through in a run of [add_interface] calls. *)
Fixpoint states_after_adds (ifaces : list IOInterface) (s : IOManager)
    : list iomgr_state :=
  match ifaces with
  | [] => []
  | i :: rest => let s' := add_interface i s in m_state s' :: states_after_adds rest s'
  end.

(** No step of [st :: l] goes back along the lifecycle. *)
Fixpoint never_backwards (st : iomgr_state) (l : list iomgr_state) : Prop :=
  match l with
  | [] => True
  | st' :: rest => (state_rank st <= state_rank st')%nat /\ never_backwards st' rest
  end.

(** The registry has reached the expected count at some point, or the state
    is still one of the two waiting states. *)
Definition registration_open (s : IOManager) : Prop :=
  (state_rank (m_state s) <= 1)%nat \/
  m_expected_ifaces s <= Z.of_nat (length (m_iface_list s)).

(** *** Delivery of a message, in the words of the design *)

(** How many times the write of the token fails with EAGAIN before it is
    answered otherwise. *)
Fixpoint eagain_run (answers : list write_result) : nat :=
  match answers with
  | WriteEAGAIN :: rest => S (eagain_run rest)
  | _ => O
  end.

(** The answer that ends the retries. *)
Definition final_answer (answers : list write_result) : write_result :=
  nth (eagain_run answers) answers WriteOk.

(** A thread the message was delivered to: the message is at the back of its
    queue, and the token was written once the retries ended. *)
Definition spec_delivered (msg : iomgr_msg) (c : ioMgrThreadContext) : ioMgrThreadContext :=
  let tokens :=
    match final_answer (msg_fd_writes c) with
    | WriteOk => msg_fd_tokens c + 1
    | _ => msg_fd_tokens c
    end in
  ctx_with_msg_fd_writes (drop (S (eagain_run (msg_fd_writes c))) (msg_fd_writes c))
    (ctx_with_msg_fd_tokens tokens (ctx_with_m_msg_q (m_msg_q c ++ [msg]) c)).

(** What happens for one delivery, in order: the message is enqueued, then
    the token is written, again while the write fails with EAGAIN. *)
Definition spec_delivery_actions (msg : iomgr_msg) (c : ioMgrThreadContext) : list action :=
  ActPutMsg (m_thread_num c) (m_type msg)
  :: repeat (ActWrite (m_thread_num c) WriteEAGAIN) (eagain_run (msg_fd_writes c))
  ++ [ActWrite (m_thread_num c) (final_answer (msg_fd_writes c))].

Definition spec_deliver_if_eligible (msg : iomgr_msg) (c : ioMgrThreadContext)
    : ioMgrThreadContext :=
  if msg_eligible c then spec_delivered msg c else c.

(** The threads [send_msg thread_num] is to deliver to. *)
Definition send_targets (thread_num : Z) (ctxs : list ioMgrThreadContext)
    : list ioMgrThreadContext :=
  if decide (thread_num = -1) then List.filter msg_eligible ctxs
  else List.filter msg_eligible
         (take 1 (List.filter (fun c => bool_decide (m_thread_num c = thread_num)) ctxs)).

(** *** The stop latch *)

(** [k] successive decrements of [m_yet_to_stop_nthreads], the first one
    taking it from [from] to [from - 1]. *)
Fixpoint countdown (from : Z) (k : nat) : list action :=
  match k with
  | O => []
  | S k' => ActDecStop (from - 1) :: countdown (from - 1) k'
  end.

(** The io threads numbered [ns] leave their loops, in that order. *)
Definition exits (ns : list Z) : list env_event := List.map ThreadStops ns.

(** The message [stop] broadcasts. *)
Definition relinquish : iomgr_msg := iomgr_msg_of_type RELINQUISH_IO_THREAD.

(** ** The per-thread drive submission context *)

Module AioDrive.

(** [aio_drive_interface.hpp]: [#define MAX_OUTSTANDING_IO 200] and
    [#define MAX_COMPLETIONS (MAX_OUTSTANDING_IO)]. *)
Definition MAX_OUTSTANDING_IO : nat := 200.
Definition MAX_COMPLETIONS : nat := MAX_OUTSTANDING_IO.

(** A control block, as a [struct iocb_info*]. *)
Definition iocb_ptr := nat.

(** [struct aio_thread_context] with the counters of
    [AioDriveInterfaceMetrics] the submission path bumps.  [iocb_list] is the
    free stack, top first; [ioctx] is the kernel's side of the identity
    handle: the blocks in flight, oldest first, each with the cookie of its
    operation; [completions] are the calls made to the completion callback,
    as (cookie, result). *)
Record aio_thread_context : Type := {
  iocb_list : list iocb_ptr;
  ioctx : list (iocb_ptr * Z);
  force_sync_io_empty_iocb : nat;
  force_sync_io_eagain_error : nat;
  io_submission_errors : nat;
  spurious_events : nat;
  sync_io_count : nat;
  completions : list (Z * Z)
}.

(** What the kernel answers to the submission of one control block. *)
Inductive submit_result : Set :=
| SubmitOk
| SubmitEAGAIN
| SubmitErr (errno : Z).

(** Modelled from the spec: [AioDriveInterface::on_io_thread_start] (absent
    [aio_drive_interface.cpp]): "allocate and seed the free stack with
    [MAX_OUTSTANDING_IO] control blocks". *)
Definition on_io_thread_start : aio_thread_context :=
  {| iocb_list := seq 0 MAX_OUTSTANDING_IO; ioctx := []; force_sync_io_empty_iocb := 0;
     force_sync_io_eagain_error := 0; io_submission_errors := 0; spurious_events := 0;
     sync_io_count := 0; completions := [] |}.

(** Modelled from the spec: [async_write] / [async_read] and their vectored
    forms (absent [aio_drive_interface.cpp]): "pop a control block from the
    free stack; ... submit to the kernel"; on "-EAGAIN: return the control
    block to the stack, bump [force_sync_io_eagain_error], and perform the
    operation synchronously ..., then synthesize a completion callback with
    the synchronous result"; "Empty free stack at entry: same synchronous
    fallback, bumping [force_sync_io_empty_iocb]"; "Other failures: bump the
    per-direction submission error counter and synthesize an error
    completion".  In the last case the block the kernel refused is back on the
    stack, as "a control block is on exactly one of (free stack, kernel
    in-flight set)" asks.  [answer] is the kernel's answer, [sync_result] what
    the synchronous operation would give. *)
Definition async_io (answer : submit_result) (cookie sync_result : Z)
    (c : aio_thread_context) : aio_thread_context :=
  match iocb_list c with
  | [] =>
      {| iocb_list := []; ioctx := ioctx c;
         force_sync_io_empty_iocb := S (force_sync_io_empty_iocb c);
         force_sync_io_eagain_error := force_sync_io_eagain_error c;
         io_submission_errors := io_submission_errors c;
         spurious_events := spurious_events c; sync_io_count := S (sync_io_count c);
         completions := completions c ++ [(cookie, sync_result)] |}
  | info :: rest =>
      match answer with
      | SubmitOk =>
          {| iocb_list := rest; ioctx := ioctx c ++ [(info, cookie)];
             force_sync_io_empty_iocb := force_sync_io_empty_iocb c;
             force_sync_io_eagain_error := force_sync_io_eagain_error c;
             io_submission_errors := io_submission_errors c;
             spurious_events := spurious_events c; sync_io_count := sync_io_count c;
             completions := completions c |}
      | SubmitEAGAIN =>
          {| iocb_list := info :: rest; ioctx := ioctx c;
             force_sync_io_empty_iocb := force_sync_io_empty_iocb c;
             force_sync_io_eagain_error := S (force_sync_io_eagain_error c);
             io_submission_errors := io_submission_errors c;
             spurious_events := spurious_events c; sync_io_count := S (sync_io_count c);
             completions := completions c ++ [(cookie, sync_result)] |}
      | SubmitErr errno =>
          {| iocb_list := info :: rest; ioctx := ioctx c;
             force_sync_io_empty_iocb := force_sync_io_empty_iocb c;
             force_sync_io_eagain_error := force_sync_io_eagain_error c;
             io_submission_errors := S (io_submission_errors c);
             spurious_events := spurious_events c; sync_io_count := sync_io_count c;
             completions := completions c ++ [(cookie, - errno)] |}
      end
  end.

(** Modelled from the spec: [process_completions] (absent
    [aio_drive_interface.cpp]): "drain the completion event descriptor's
    token(s), then harvest up to [MAX_COMPLETIONS] events from the kernel
    identity handle with a zero timeout.  For each event: recover the control
    block, push it back onto the free stack, invoke the attached completion
    callback"; "spurious (zero-token) events bump the [spurious_events]
    counter and are ignored".  [tokens] is what the drain reads, [ready] how
    many operations the kernel has completed, [result] their results. *)
Definition process_completions (tokens ready : nat) (result : iocb_ptr -> Z)
    (c : aio_thread_context) : aio_thread_context :=
  match tokens with
  | O =>
      {| iocb_list := iocb_list c; ioctx := ioctx c;
         force_sync_io_empty_iocb := force_sync_io_empty_iocb c;
         force_sync_io_eagain_error := force_sync_io_eagain_error c;
         io_submission_errors := io_submission_errors c;
         spurious_events := S (spurious_events c); sync_io_count := sync_io_count c;
         completions := completions c |}
  | S _ =>
      let events := take (Nat.min ready MAX_COMPLETIONS) (ioctx c) in
      {| iocb_list := rev (List.map fst events) ++ iocb_list c;
         ioctx := drop (Nat.min ready MAX_COMPLETIONS) (ioctx c);
         force_sync_io_empty_iocb := force_sync_io_empty_iocb c;
         force_sync_io_eagain_error := force_sync_io_eagain_error c;
         io_submission_errors := io_submission_errors c;
         spurious_events := spurious_events c; sync_io_count := sync_io_count c;
         completions :=
           completions c ++ List.map (fun e => (snd e, result (fst e))) events |}
  end.

(** What a thread does with its context between start and stop. *)
Inductive drive_op : Type :=
| AsyncIo (answer : submit_result) (cookie sync_result : Z)
| ProcessCompletions (tokens ready : nat) (result : iocb_ptr -> Z).

Definition drive_step (op : drive_op) (c : aio_thread_context) : aio_thread_context :=
  match op with
  | AsyncIo answer cookie sync_result => async_io answer cookie sync_result c
  | ProcessCompletions tokens ready result => process_completions tokens ready result c
  end.

Definition drive_run (ops : list drive_op) (c : aio_thread_context) : aio_thread_context :=
  fold_left (fun c op => drive_step op c) ops c.

(** Every control block of the pool is on the free stack or in flight, and
    on one of them only. *)
Definition pool_accounted (c : aio_thread_context) : Prop :=
  iocb_list c ++ List.map fst (ioctx c) ≡ₚ seq 0 MAX_OUTSTANDING_IO.

End AioDrive.

(** ** Scenarios *)

(** A manager started with no custom interface and no thread of its own. *)
Definition scenario_cold_start : IOManager := start 0 0 None 100 IOManager_new.

(** A manager started with one custom interface expected and two threads. *)
Definition scenario_awaiting_interface : IOManager := start 1 2 None 100 IOManager_new.

(** A manager started with two threads, not yet running. *)
Definition scenario_awaiting_threads : IOManager := start 0 2 None 100 IOManager_new.

(** The same once both threads have entered their loops. *)
Definition scenario_two_threads : IOManager :=
  run_env [ThreadStarts 1 true None 50; ThreadStarts 2 true None 51]
    scenario_awaiting_threads.




(** The two-thread manager with one global descriptor registered. *)
Definition scenario_registered : IOManager :=
  match _add_fd [] 1 5 77 0 EPOLLIN 3 0 false scenario_two_threads with
  | Returns (_, s) => s
  | _ => scenario_two_threads
  end.

(** The descriptor is removed and the manager stopped, thread 1 leaving its
    loop before the latch is decremented and thread 2 after. *)
Definition teardown : list mgr_op :=
  [OpRemoveFd 1 5 2%nat None; OpStop (exits [1]) (exits [2])].

Definition scenario_torn_down : IOManager :=
  match run_ops teardown scenario_registered with
  | Returns s => s
  | _ => scenario_registered
  end.

(** * Properties *)

(** ** Calls that return *)

Lemma bind_returns {A B : Type} (m : outcome A) (k : A -> outcome B) (b : B) :
  m ≫= k = Returns b -> exists a, m = Returns a /\ k a = Returns b.
Proof. destruct m as [a| | |]; simpl; intros H; try done. by exists a. Qed.

(** ** The thread buffer *)

Lemma access_all_threads_unit (g : ioMgrThreadContext -> ioMgrThreadContext)
    (ctxs : list ioMgrThreadContext) :
  access_all_threads (fun c (_ : unit) => (g c, tt)) ctxs tt = (List.map g ctxs, tt).
Proof.
  induction ctxs as [|c rest IH]; simpl; [done|].
  by rewrite IH.
Qed.

Lemma access_specific_thread_unit (n : Z) (g : ioMgrThreadContext -> ioMgrThreadContext)
    (ctxs : list ioMgrThreadContext) :
  access_specific_thread n (fun c (_ : unit) => (g c, tt)) ctxs tt =
    (update_first n g ctxs, tt).
Proof.
  induction ctxs as [|c rest IH]; simpl; [done|].
  case_decide; [done|]. by rewrite IH.
Qed.

Lemma update_first_other (n : Z) (g : ioMgrThreadContext -> ioMgrThreadContext)
    (ctxs : list ioMgrThreadContext) (i : nat) (c : ioMgrThreadContext) :
  ctxs !! i = Some c -> m_thread_num c <> n -> update_first n g ctxs !! i = Some c.
Proof.
  revert i. induction ctxs as [|d rest IH]; intros i Hi Hne; [done|].
  simpl. destruct i as [|i]; simpl in *.
  - simplify_eq. by case_decide.
  - case_decide; [done|]. simpl. by apply IH.
Qed.

(** ** The record store only grows *)

#[local] Instance store_kept_preorder : PreOrder store_kept.
Proof.
  split.
  - intros s. unfold store_kept. reflexivity.
  - intros s1 s2 s3 H12 H23. unfold store_kept in *. by etrans.
Qed.

Lemma store_kept_eq (s s' : IOManager) : fd_store s' = fd_store s -> store_kept s s'.
Proof. intros H. unfold store_kept. by rewrite H. Qed.

Lemma store_kept_lookup (s s' : IOManager) (p : fd_ptr) (x : fd_info) :
  store_kept s s' -> fd_store s !! p = Some x -> fd_store s' !! p = Some x.
Proof. intros Hk Hp. by eapply prefix_lookup_Some. Qed.

Lemma alter_snoc {A : Type} (f : A -> A) (l : list A) (x : A) :
  alter f (length l) (l ++ [x]) = l ++ [f x].
Proof. induction l as [|y l IH]; simpl; [done|]. f_equal. exact IH. Qed.

Lemma lookup_snoc_length {A : Type} (l : list A) (x : A) : (l ++ [x]) !! length l = Some x.
Proof. by apply list_lookup_middle. Qed.

Lemma spawn_io_threads_eq (n : nat) (s : IOManager) :
  spawn_io_threads n s = with_m_iomgr_threads (m_iomgr_threads s ++ repeat io_thread n) s.
Proof.
  revert s. induction n as [|n IH]; intros s; simpl.
  - rewrite app_nil_r. by destruct s.
  - rewrite IH. unfold with_m_iomgr_threads; simpl. by rewrite <- app_assoc.
Qed.

Lemma add_interface_store (iface : IOInterface) (s : IOManager) :
  fd_store (add_interface iface s) = fd_store s.
Proof.
  unfold add_interface; simpl.
  repeat case_decide; try rewrite spawn_io_threads_eq; done.
Qed.

Lemma send_msg_store (n : Z) (msg : iomgr_msg) (s : IOManager) :
  fd_store (snd (send_msg n msg s)) = fd_store s.
Proof.
  unfold send_msg.
  case_decide.
  - by destruct (access_all_threads _ _ _) as [ctxs [k acts]].
  - by destruct (access_specific_thread _ _ _ _) as [ctxs [k acts]].
Qed.

Lemma io_thread_started_store (b : bool) (s : IOManager) :
  fd_store (io_thread_started b s) = fd_store s.
Proof.
  unfold io_thread_started, yet_to_start_decrement_testz; simpl.
  destruct b; [|done]. by case_bool_decide.
Qed.

Lemma io_thread_stopped_store (s : IOManager) :
  fd_store (io_thread_stopped s) = fd_store s.
Proof.
  unfold io_thread_stopped, yet_to_stop_decrement_testz; simpl.
  by case_bool_decide.
Qed.

Lemma env_step_store (e : env_event) (s : IOManager) : store_kept s (env_step e s).
Proof.
  destruct e as [n b sel msg_fd|n]; simpl.
  - unfold thread_starts, create_fd_info, store_alloc.
    destruct (access_specific_thread _ _ _ _) as [ctxs u].
    unfold store_kept. rewrite io_thread_started_store. simpl.
    by apply prefix_app_r.
  - unfold thread_stops.
    destruct (access_specific_thread _ _ _ _) as [ctxs u].
    apply store_kept_eq. by rewrite io_thread_stopped_store.
Qed.

Lemma run_env_store (env : list env_event) (s : IOManager) : store_kept s (run_env env s).
Proof.
  revert s. induction env as [|e env IH]; intros s; simpl.
  - reflexivity.
  - etrans; [apply env_step_store|apply IH].
Qed.

Lemma wait_until_store (ready : IOManager -> bool) (env : list env_event)
    (s s' : IOManager) :
  wait_until ready env s = Returns s' -> store_kept s s'.
Proof.
  revert s. induction env as [|e env IH]; intros s; simpl.
  - destruct (ready s); [|done]. intros [= <-]. reflexivity.
  - destruct (ready s).
    + intros [= <-]. reflexivity.
    + intros H. etrans; [apply env_step_store|by apply IH].
Qed.

Lemma send_to_least_busy_thread_store (envs : list (list env_event)) (msg : iomgr_msg)
    (s s' : IOManager) :
  send_to_least_busy_thread envs msg s = Returns s' -> store_kept s s'.
Proof.
  revert s. induction envs as [|env rest IH]; intros s; simpl.
  - pose proof (send_msg_store (find_least_busy_thread_id s) msg s) as Hs.
    destruct (send_msg _ _ _) as [n s1]. case_decide; [|done].
    intros [= <-]. by apply store_kept_eq.
  - pose proof (send_msg_store (find_least_busy_thread_id s) msg (run_env env s)) as Hs.
    destruct (send_msg _ _ _) as [n s1]. simpl in Hs.
    assert (store_kept s s1) as Hk.
    { etrans; [apply (run_env_store env)|by apply store_kept_eq]. }
    case_decide.
    + by intros [= <-].
    + intros Hr. etrans; [exact Hk|by apply IH].
Qed.

Lemma stop_store (env1 env2 : list env_event) (s s' : IOManager) :
  stop env1 env2 s = Returns s' -> store_kept s s'.
Proof.
  unfold stop.
  pose proof (send_msg_store (-1) (iomgr_msg_of_type RELINQUISH_IO_THREAD)
                (yet_to_stop_increment (set_state stopping s))) as Hs.
  destruct (send_msg _ _ _) as [n s1]. simpl in Hs.
  set (s2 := record_action ActNullTimer (with_m_global_timer None s1)).
  assert (store_kept s (run_env env1 s2)) as Hk.
  { etrans; [|apply run_env_store]. by apply store_kept_eq. }
  unfold yet_to_stop_decrement_testz.
  intros H. apply bind_returns in H as (s3 & Hw & H).
  assert (store_kept s s3) as Hk3.
  { etrans; [exact Hk|]. destruct (bool_decide _).
    - injection Hw as <-. by apply store_kept_eq.
    - apply wait_until_store in Hw. exact Hw. }
  destruct (decide _) as [_|_]; [|done]. injection H as <-. exact Hk3.
Qed.

Lemma add_fd_store (env : list env_event) (self : Z) (iface : IOInterface)
    (fd0 cb0 ev0 pri0 cookie0 : Z) (b : bool) (s s' : IOManager) (p : fd_ptr) :
  _add_fd env self iface fd0 cb0 ev0 pri0 cookie0 b s = Returns (p, s') -> store_kept s s'.
Proof.
  unfold _add_fd.
  destruct (if negb b && negb (bool_decide (get_state s = running))
            then wait_to_be_ready env s else Returns s) as [s0| | |] eqn:Hw;
    simpl; try done.
  assert (store_kept s s0) as Hk.
  { destruct (negb b && negb (bool_decide (get_state s = running))).
    - by eapply wait_until_store.
    - injection Hw as <-. reflexivity. }
  unfold deref, store_write, create_fd_info, store_alloc; simpl.
  rewrite alter_snoc, lookup_snoc_length; simpl.
  intros H. etrans; [exact Hk|].
  unfold store_kept.
  destruct b; simpl in H.
  - destruct (access_specific_thread _ _ _ _) as [ctxs u]. injection H as <- <-.
    simpl. by apply prefix_app_r.
  - destruct (access_all_threads _ _ _) as [ctxs u]. injection H as <- <-.
    simpl. by apply prefix_app_r.
Qed.

Lemma remove_fd_store (self : Z) (iface : IOInterface) (info : fd_ptr) (ctx : option Z)
    (s s' : IOManager) :
  remove_fd self iface info ctx s = Returns s' -> fd_store s' = fd_store s.
Proof.
  unfold remove_fd.
  destruct (negb _ && negb _); [by intros [= <-]|].
  intros H. apply bind_returns in H as (i & _ & H).
  destruct (is_global i).
  - destruct (access_all_threads _ _ _) as [ctxs u]. by injection H as <-.
  - destruct ctx as [n|]; destruct (access_specific_thread _ _ _ _) as [ctxs u];
      by injection H as <-.
Qed.

Lemma run_op_store (op : mgr_op) (s s' : IOManager) :
  run_op op s = Returns s' -> store_kept s s'.
Proof.
  destruct op; simpl; intros H.
  - injection H as <-. apply store_kept_eq. unfold start. by rewrite add_interface_store.
  - by eapply stop_store.
  - injection H as <-. apply store_kept_eq. apply add_interface_store.
  - injection H as <-. apply store_kept_eq. unfold add_drive_interface.
    destruct default_iface; simpl; apply add_interface_store.
  - apply bind_returns in H as ([p s1] & Ha & H). injection H as <-.
    by eapply add_fd_store.
  - apply store_kept_eq. by eapply remove_fd_store.
  - unfold fd_reschedule_fd in H. apply bind_returns in H as (p & _ & H).
    by eapply send_to_least_busy_thread_store.
  - by eapply send_to_least_busy_thread_store.
  - by eapply send_to_least_busy_thread_store.
  - injection H as <-. apply store_kept_eq. apply send_msg_store.
  - injection H as <-. apply env_step_store.
Qed.

Lemma run_ops_store (ops : list mgr_op) (s s' : IOManager) :
  run_ops ops s = Returns s' -> store_kept s s'.
Proof.
  revert s. induction ops as [|op rest IH]; intros s; simpl.
  - intros [= <-]. reflexivity.
  - intros H. apply bind_returns in H as (s1 & H1 & H).
    etrans; [by eapply run_op_store|by apply IH].
Qed.


Lemma wait_until_now (ready : IOManager -> bool) (env : list env_event) (s : IOManager) :
  ready s = true -> wait_until ready env s = Returns s.
Proof. intros H. destruct env; simpl; by rewrite H. Qed.

(** ** Descriptor records *)

(** C8.  A descriptor record's [is_global] (indeed the whole record) is the
    same after any run of the manager's operations as before it: once
    [_add_fd] has returned the pointer, nothing writes behind it. *)
Theorem is_global_immutable (ops : list mgr_op) (s s' : IOManager) (p : fd_ptr)
    (x : fd_info) :
  fd_store s !! p = Some x ->
  run_ops ops s = Returns s' ->
  fd_store s' !! p = Some x /\ is_global <$> fd_store s' !! p = Some (is_global x).
Proof.
  intros Hp Hrun.
  assert (fd_store s' !! p = Some x) as Hp'.
  { eapply store_kept_lookup; [by eapply run_ops_store|done]. }
  by rewrite Hp'.
Qed.

(** C9, as the code has it.  The record [_add_fd] makes carries the priority
    the caller passed, whatever it is; it lies in [0, MAX_PRI) exactly when
    the argument does. *)
Theorem add_fd_priority_is_argument (env : list env_event) (self : Z) (iface : IOInterface)
    (fd0 cb0 ev0 pri0 cookie0 : Z) (b : bool) (s s' : IOManager) (p : fd_ptr) :
  _add_fd env self iface fd0 cb0 ev0 pri0 cookie0 b s = Returns (p, s') ->
  exists x, fd_store s' !! p = Some x /\ pri x = pri0 /\
            (0 <= pri x < MAX_PRI <-> 0 <= pri0 < MAX_PRI).
Proof.
  unfold _add_fd. intros H.
  apply bind_returns in H as (s0 & _ & H).
  unfold deref, store_write, create_fd_info, store_alloc in H; simpl in H.
  rewrite alter_snoc, lookup_snoc_length in H; simpl in H.
  exists (added_fd_info iface fd0 cb0 ev0 pri0 cookie0 b).
  destruct b; simpl in H.
  - destruct (access_specific_thread _ _ _ _) as [ctxs u]. injection H as <- <-.
    simpl. by rewrite lookup_snoc_length.
  - destruct (access_all_threads _ _ _) as [ctxs u]. injection H as <- <-.
    simpl. by rewrite lookup_snoc_length.
Qed.

(** C10.  [fd_to_info] has a result exactly for the descriptors in the global
    map: for one that is absent the end iterator is read and nothing is
    defined, and so for [fd_reschedule] on that raw descriptor. *)
Theorem fd_to_info_needs_registered_fd (fd0 : Z) (s : IOManager) :
  (fd_to_info fd0 s = Undefined <-> m_fd_info_map s !! fd0 = None) /\
  (forall p, fd_to_info fd0 s = Returns p <-> m_fd_info_map s !! fd0 = Some p) /\
  (m_fd_info_map s !! fd0 = None ->
   forall envs event, fd_reschedule_fd envs fd0 event s = Undefined).
Proof.
  unfold fd_reschedule_fd, fd_to_info, map_find.
  destruct (m_fd_info_map s !! fd0) as [p|] eqn:E; simpl.
  - destruct (decide (fd0 = fd0)) as [_|Hne]; [|done].
    split; [split; done|]. split; [|done].
    intros q. split; congruence.
  - split; [done|]. split; [|done]. intros q. split; done.
Qed.

(** ** Registering and removing descriptors *)


(** C4.  Outside [running] and [stopping], [remove_fd] returns the state it
    was given.  In those two states a global record is removed from the
    multiplexer of every io thread and the entry under its descriptor is
    erased from the global map; a per-thread record is removed from the one
    context that was passed, or from the calling thread's when none was. *)
Theorem remove_fd_by_state (self : Z) (iface : IOInterface) (info : fd_ptr)
    (iomgr_ctx : option Z) (s : IOManager) :
  (get_state s <> running -> get_state s <> stopping ->
   remove_fd self iface info iomgr_ctx s = Returns s) /\
  (forall i,
      get_state s = running \/ get_state s = stopping ->
      fd_store s !! info = Some i ->
      is_global i = true ->
      remove_fd self iface info iomgr_ctx s =
        Returns (with_m_fd_info_map (delete (fd i) (m_fd_info_map s))
                   (with_m_thread_ctx
                      (List.map (fun c => if is_io_thread c
                                          then remove_fd_from_thread info c else c)
                                (m_thread_ctx s)) s))) /\
  (forall i,
      get_state s = running \/ get_state s = stopping ->
      fd_store s !! info = Some i ->
      is_global i = false ->
      remove_fd self iface info iomgr_ctx s =
        Returns (with_m_thread_ctx
                   (match iomgr_ctx with
                    | Some n => update_first n (remove_fd_from_thread info) (m_thread_ctx s)
                    | None => update_first self (remove_fd_from_thread info)
                                (thread_local self (m_thread_ctx s))
                    end) s)).
Proof.
  unfold remove_fd.
  split; [|split].
  - intros H1 H2. by rewrite !bool_decide_eq_false_2.
  - intros i Hst Hi Hg.
    assert (negb (bool_decide (get_state s = running)) &&
            negb (bool_decide (get_state s = stopping)) = false) as ->.
    { destruct Hst as [-> | ->]; done. }
    unfold deref. rewrite Hi; simpl. rewrite Hg.
    by rewrite access_all_threads_unit.
  - intros i Hst Hi Hg.
    assert (negb (bool_decide (get_state s = running)) &&
            negb (bool_decide (get_state s = stopping)) = false) as ->.
    { destruct Hst as [-> | ->]; done. }
    unfold deref. rewrite Hi; simpl. rewrite Hg.
    destruct iomgr_ctx as [n|]; by rewrite access_specific_thread_unit.
Qed.

(** ** Startup *)

Lemma add_interface_cases (iface : IOInterface) (s : IOManager) :
  let s' := add_interface iface s in
  let count := Z.of_nat (length (m_iface_list s)) + 1 in
  let nthreads := m_yet_to_start_nthreads s in
  m_iface_list s' = m_iface_list s ++ [iface] /\
  m_expected_ifaces s' = m_expected_ifaces s /\
  m_yet_to_start_nthreads s' = nthreads /\
  (count = m_expected_ifaces s -> nthreads <> 0 ->
   m_state s' = waiting_for_threads /\
   m_iomgr_threads s' = m_iomgr_threads s ++ repeat io_thread (Z.to_nat nthreads)) /\
  (count = m_expected_ifaces s -> nthreads = 0 ->
   m_state s' = running /\ m_iomgr_threads s' = m_iomgr_threads s) /\
  (count <> m_expected_ifaces s ->
   m_state s' = m_state s /\ m_iomgr_threads s' = m_iomgr_threads s).
Proof.
  unfold add_interface; simpl.
  rewrite length_app; simpl.
  replace (Z.of_nat (length (m_iface_list s) + 1)) with
    (Z.of_nat (length (m_iface_list s)) + 1) by lia.
  repeat case_decide; try rewrite spawn_io_threads_eq; simpl;
    repeat split; intros; try done; try lia.
Qed.

Lemma add_interface_keeps_open (iface : IOInterface) (s : IOManager) :
  registration_open s ->
  (state_rank (m_state s) <= state_rank (m_state (add_interface iface s)))%nat /\
  registration_open (add_interface iface s).
Proof.
  intros Hopen.
  destruct (add_interface_cases iface s) as (Hl & He & _ & Hpos & Hzero & Hne).
  unfold registration_open in *. rewrite Hl, He, length_app; simpl.
  destruct (decide (Z.of_nat (length (m_iface_list s)) + 1 = m_expected_ifaces s))
    as [Heq|Hneq].
  - destruct Hopen as [Hr|Hr]; [|lia].
    destruct (decide (m_yet_to_start_nthreads s = 0)) as [Hz|Hnz].
    + destruct (Hzero Heq Hz) as [-> _]. simpl. split; lia.
    + destruct (Hpos Heq Hnz) as [-> _]. simpl. split; lia.
  - destruct (Hne Hneq) as [-> _]. split; [lia|].
    destruct Hopen as [Hr|Hr]; [by left|right; lia].
Qed.

Lemma adds_never_backwards (ifaces : list IOInterface) (s : IOManager) :
  registration_open s -> never_backwards (m_state s) (states_after_adds ifaces s).
Proof.
  revert s. induction ifaces as [|i rest IH]; intros s Hopen; simpl; [done|].
  destruct (add_interface_keeps_open i s Hopen) as [Hle Hopen'].
  split; [exact Hle|by apply IH].
Qed.

(** C2, as the code has it.  [add_interface] appends the interface.  When the
    registry thereby reaches exactly the expected count, the state becomes
    [waiting_for_threads] and as many reactor threads as the recorded count
    are spawned, each with [is_iomgr_thread = true], if that count is
    positive, and [running] with no thread spawned if it is zero; at any
    other size, also past the expected count, state and threads are as
    before.  Any run of [add_interface] calls that begins in
    [waiting_for_interfaces] or [waiting_for_threads] never steps backwards
    along the lifecycle. *)
Theorem add_interface_advances_at_expected_count (iface : IOInterface) (s : IOManager) :
  let s' := add_interface iface s in
  let count := Z.of_nat (length (m_iface_list s)) + 1 in
  let nthreads := m_yet_to_start_nthreads s in
  m_iface_list s' = m_iface_list s ++ [iface] /\
  (count = m_expected_ifaces s -> 0 < nthreads ->
   m_state s' = waiting_for_threads /\
   m_iomgr_threads s' = m_iomgr_threads s ++ repeat io_thread (Z.to_nat nthreads) /\
   Z.of_nat (length (repeat io_thread (Z.to_nat nthreads))) = nthreads /\
   th_is_iomgr_thread io_thread = true) /\
  (count = m_expected_ifaces s -> nthreads = 0 ->
   m_state s' = running /\ m_iomgr_threads s' = m_iomgr_threads s) /\
  (count <> m_expected_ifaces s ->
   m_state s' = m_state s /\ m_iomgr_threads s' = m_iomgr_threads s) /\
  ((state_rank (m_state s) <= 1)%nat ->
   forall ifaces, never_backwards (m_state s) (states_after_adds ifaces s)).
Proof.
  intros s' count nthreads.
  destruct (add_interface_cases iface s) as (Hl & _ & _ & Hpos & Hzero & Hne).
  split; [exact Hl|]. split; [|split; [exact Hzero|split; [exact Hne|]]].
  - intros Heq Hn. destruct (Hpos Heq) as [Hst Hth]; [subst nthreads; lia|].
    split; [exact Hst|]. split; [exact Hth|]. split; [|done].
    rewrite repeat_length. subst nthreads. lia.
  - intros Hr ifaces. apply adds_never_backwards. by left.
Qed.

(** ** Messages *)

Lemma write_token_spec (n : Z) (answers : list write_result) :
  write_token n answers =
    (final_answer answers, drop (S (eagain_run answers)) answers,
     repeat (ActWrite n WriteEAGAIN) (eagain_run answers)
       ++ [ActWrite n (final_answer answers)]) /\
  final_answer answers <> WriteEAGAIN.
Proof.
  unfold final_answer.
  induction answers as [|r rest [IH Hne]]; simpl; [done|].
  destruct r; simpl; try done.
  by rewrite IH.
Qed.

Lemma send_msg_visit_eligible (msg : iomgr_msg) (c : ioMgrThreadContext) (n : Z)
    (acts : list action) :
  msg_eligible c = true ->
  send_msg_visit msg c (n, acts) =
    (spec_delivered msg c, (wrap32 (n + 1), acts ++ spec_delivery_actions msg c)).
Proof.
  unfold msg_eligible, send_msg_visit, spec_delivered, spec_delivery_actions.
  intros [H1 H2]%andb_true_iff. rewrite H1, H2; simpl.
  destruct (write_token_spec (m_thread_num c) (msg_fd_writes c)) as [-> _].
  reflexivity.
Qed.

Lemma send_msg_visit_skip (msg : iomgr_msg) (c : ioMgrThreadContext) (acc : Z * list action) :
  msg_eligible c = false -> send_msg_visit msg c acc = (c, acc).
Proof.
  unfold msg_eligible, send_msg_visit. destruct acc as [n acts].
  intros [-> | ->]%andb_false_iff; simpl; [done|].
  by rewrite orb_true_r.
Qed.

#[local] Arguments send_msg_visit : simpl never.
#[local] Arguments spec_delivery_actions : simpl never.
#[local] Arguments msg_eligible : simpl never.

Lemma wrap32_succ (n : Z) : wrap32 (wrap32 n + 1) = wrap32 (n + 1).
Proof. unfold wrap32. by rewrite Z.add_mod_idemp_l. Qed.

Lemma broadcast_visits (msg : iomgr_msg) (ctxs : list ioMgrThreadContext) (n : Z)
    (acts : list action) :
  access_all_threads (send_msg_visit msg) ctxs (wrap32 n, acts) =
    (List.map (spec_deliver_if_eligible msg) ctxs,
     (wrap32 (n + Z.of_nat (length (List.filter msg_eligible ctxs))),
      acts ++ flat_map (spec_delivery_actions msg) (List.filter msg_eligible ctxs))).
Proof.
  revert n acts. induction ctxs as [|c rest IH]; intros n acts; simpl.
  - by rewrite Z.add_0_r, app_nil_r.
  - unfold spec_deliver_if_eligible at 1.
    destruct (msg_eligible c) eqn:E.
    + rewrite send_msg_visit_eligible by done. rewrite wrap32_succ, IH. simpl.
      rewrite <- app_assoc. do 3 f_equal. lia.
    + rewrite send_msg_visit_skip by done. by rewrite IH.
Qed.

Lemma targeted_visit (thread_num : Z) (msg : iomgr_msg) (ctxs : list ioMgrThreadContext) :
  let targets :=
    List.filter msg_eligible
      (take 1 (List.filter (fun c => bool_decide (m_thread_num c = thread_num)) ctxs)) in
  access_specific_thread thread_num (send_msg_visit msg) ctxs (0, []) =
    (update_first thread_num (spec_deliver_if_eligible msg) ctxs,
     (wrap32 (Z.of_nat (length targets)), flat_map (spec_delivery_actions msg) targets)).
Proof.
  induction ctxs as [|c rest IH]; simpl; [done|].
  case_decide as Hn.
  - rewrite bool_decide_eq_true_2 by done. simpl.
    unfold spec_deliver_if_eligible.
    destruct (msg_eligible c) eqn:E; simpl.
    + rewrite send_msg_visit_eligible by done. simpl. by rewrite app_nil_r.
    + by rewrite send_msg_visit_skip.
  - rewrite bool_decide_eq_false_2 by done. simpl in IH. by rewrite IH.
Qed.

Lemma no_target_broadcast (msg : iomgr_msg) (ctxs : list ioMgrThreadContext) :
  List.filter msg_eligible ctxs = [] -> List.map (spec_deliver_if_eligible msg) ctxs = ctxs.
Proof.
  induction ctxs as [|c rest IH]; simpl; [done|].
  unfold spec_deliver_if_eligible at 1.
  destruct (msg_eligible c); [done|]. intros H. by rewrite IH.
Qed.

Lemma no_target_specific (n : Z) (msg : iomgr_msg) (ctxs : list ioMgrThreadContext) :
  List.filter msg_eligible
    (take 1 (List.filter (fun c => bool_decide (m_thread_num c = n)) ctxs)) = [] ->
  update_first n (spec_deliver_if_eligible msg) ctxs = ctxs.
Proof.
  induction ctxs as [|c rest IH]; simpl; [done|].
  case_decide as Hn.
  - rewrite bool_decide_eq_true_2 by done. simpl.
    unfold spec_deliver_if_eligible. by destruct (msg_eligible c).
  - rewrite bool_decide_eq_false_2 by done. intros H. by rewrite IH.
Qed.

Lemma send_msg_eq (thread_num : Z) (msg : iomgr_msg) (s : IOManager) :
  let targets := send_targets thread_num (m_thread_ctx s) in
  send_msg thread_num msg s =
    (wrap32 (Z.of_nat (length targets)),
     with_history (history s ++ flat_map (spec_delivery_actions msg) targets)
       (with_m_thread_ctx
          (if decide (thread_num = -1)
           then List.map (spec_deliver_if_eligible msg) (m_thread_ctx s)
           else update_first thread_num (spec_deliver_if_eligible msg) (m_thread_ctx s))
          s)).
Proof.
  unfold send_msg, send_targets.
  case_decide.
  - change 0 with (wrap32 0) at 1. by rewrite broadcast_visits.
  - by rewrite targeted_visit.
Qed.

(** C5.  [send_msg] delivers to exactly the threads that have a message
    descriptor and are marked [m_is_io_thread], all of them for [-1] and
    otherwise the one numbered [thread_num].  For each, in turn, the message
    is enqueued and then the token is written, again while the write fails
    with EAGAIN; every other thread is as before.  The value returned is the
    number of threads delivered to (as a [uint32_t]); with no eligible thread
    the call returns 0 and changes nothing. *)
Theorem send_msg_delivers_to_eligible (thread_num : Z) (msg : iomgr_msg) (s : IOManager) :
  let targets := send_targets thread_num (m_thread_ctx s) in
  let n := fst (send_msg thread_num msg s) in
  let s' := snd (send_msg thread_num msg s) in
  n = wrap32 (Z.of_nat (length targets)) /\
  (Z.of_nat (length targets) < 2 ^ 32 -> n = Z.of_nat (length targets)) /\
  (thread_num = -1 ->
   targets = List.filter msg_eligible (m_thread_ctx s) /\
   m_thread_ctx s' = List.map (spec_deliver_if_eligible msg) (m_thread_ctx s)) /\
  (thread_num <> -1 ->
   (length targets <= 1)%nat /\
   (forall c, c ∈ targets -> m_thread_num c = thread_num) /\
   m_thread_ctx s' = update_first thread_num (spec_deliver_if_eligible msg) (m_thread_ctx s)) /\
  (forall c, c ∈ targets -> msg_eligible c = true /\ c ∈ m_thread_ctx s) /\
  history s' = history s ++ flat_map (spec_delivery_actions msg) targets /\
  (forall c, final_answer (msg_fd_writes c) <> WriteEAGAIN /\
             m_msg_q (spec_delivered msg c) = m_msg_q c ++ [msg]) /\
  (targets = [] -> n = 0 /\ s' = s).
Proof.
  intros targets n s'. subst n s'. rewrite send_msg_eq. fold targets. simpl.
  assert (forall c, c ∈ targets -> msg_eligible c = true /\ c ∈ m_thread_ctx s) as Hin.
  { intros c. subst targets. unfold send_targets. rewrite !list_elem_of_In.
    case_decide.
    - rewrite filter_In. tauto.
    - rewrite filter_In. intros [Hc He]. split; [done|].
      apply list_elem_of_In, elem_of_take in Hc as (i & Hc & _).
      apply list_elem_of_lookup_2, list_elem_of_In, filter_In in Hc. tauto. }
  split; [done|]. split.
  { intros Hlt. unfold wrap32. apply Z.mod_small. lia. }
  split.
  { intros ->. unfold targets, send_targets. by rewrite !decide_True. }
  split.
  { intros Hne. unfold targets, send_targets. rewrite !decide_False by done.
    set (l := List.filter (fun c => bool_decide (m_thread_num c = thread_num)) _).
    assert (forall c, c ∈ take 1 l -> m_thread_num c = thread_num) as Hnum.
    { intros c (i & Hc & _)%elem_of_take.
      apply list_elem_of_lookup_2, list_elem_of_In, filter_In in Hc as [_ Hc].
      by apply bool_decide_eq_true in Hc. }
    split; [|split; [|done]].
    - destruct l as [|c [|d l]]; simpl; try lia; destruct (msg_eligible c); simpl; lia.
    - intros c Hc. apply Hnum. apply list_elem_of_In, filter_In in Hc as [Hc _].
      by apply list_elem_of_In. }
  split; [exact Hin|]. split; [done|]. split.
  { intros c. split; [apply write_token_spec; exact 0|done]. }
  intros Ht. rewrite Ht. simpl. split; [done|].
  rewrite app_nil_r.
  assert ((if decide (thread_num = -1)
           then List.map (spec_deliver_if_eligible msg) (m_thread_ctx s)
           else update_first thread_num (spec_deliver_if_eligible msg) (m_thread_ctx s))
          = m_thread_ctx s) as ->.
  { unfold targets, send_targets in Ht. case_decide.
    - by apply no_target_broadcast.
    - by apply no_target_specific. }
  by destruct s.
Qed.

(** ** Routing to the least busy thread *)

#[local] Arguments least_busy_visit : simpl never.

Lemma least_busy_scan (ctxs : list ioMgrThreadContext) (id cnt : Z) :
  let acc := snd (access_all_threads least_busy_visit ctxs (id, cnt)) in
  snd acc <= cnt /\
  (forall c, c ∈ ctxs -> is_io_thread c = true -> snd acc <= m_count c) /\
  (acc = (id, cnt) \/
   exists c, c ∈ ctxs /\ is_io_thread c = true /\
             m_thread_num c = fst acc /\ m_count c = snd acc).
Proof.
  revert id cnt. induction ctxs as [|c rest IH]; intros id cnt; simpl.
  - split; [lia|]. split; [|by left]. intros c Hc. by apply elem_of_nil in Hc.
  - assert (least_busy_visit c (id, cnt) =
            (c, if negb (is_io_thread c) then (id, cnt)
                else if m_count c <? cnt then (m_thread_num c, m_count c) else (id, cnt)))
      as ->.
    { unfold least_busy_visit. destruct (negb (is_io_thread c)); [done|].
      by destruct (m_count c <? cnt). }
    destruct (is_io_thread c) eqn:Eio; simpl.
    + destruct (m_count c <? cnt) eqn:Elt.
      * apply Z.ltb_lt in Elt.
        specialize (IH (m_thread_num c) (m_count c)).
        destruct (access_all_threads least_busy_visit rest (m_thread_num c, m_count c))
          as [rest' acc]. simpl in *.
        destruct IH as (Hle & Hmin & Hwho).
        split; [lia|]. split.
        -- intros d [->|Hd]%elem_of_cons Hio; [done|by apply Hmin].
        -- right. destruct Hwho as [->|(d & Hd & Hio & Hn & Hc)].
           ++ exists c. split; [by left|done].
           ++ exists d. split; [by right|done].
      * apply Z.ltb_ge in Elt.
        specialize (IH id cnt).
        destruct (access_all_threads least_busy_visit rest (id, cnt)) as [rest' acc].
        simpl in *. destruct IH as (Hle & Hmin & Hwho).
        split; [done|]. split.
        -- intros d [->|Hd]%elem_of_cons Hio; [lia|by apply Hmin].
        -- destruct Hwho as [->|(d & Hd & Hio & Hn & Hc)]; [by left|].
           right. exists d. split; [by right|done].
    + specialize (IH id cnt).
      destruct (access_all_threads least_busy_visit rest (id, cnt)) as [rest' acc].
      simpl in *. destruct IH as (Hle & Hmin & Hwho).
      split; [done|]. split.
      * intros d [->|Hd]%elem_of_cons Hio; [congruence|by apply Hmin].
      * destruct Hwho as [->|(d & Hd & Hio & Hn & Hc)]; [by left|].
        right. exists d. split; [by right|done].
Qed.






Lemma find_least_busy_without_io_threads (s : IOManager) :
  (forall c, c ∈ m_thread_ctx s -> is_io_thread c = false) ->
  find_least_busy_thread_id s = 0.
Proof.
  intros Hnone. unfold find_least_busy_thread_id.
  destruct (least_busy_scan (m_thread_ctx s) 0 UINTMAX_MAX) as (_ & _ & Hwho).
  destruct Hwho as [->|(c & Hc & Hio & _)]; [done|].
  rewrite (Hnone c Hc) in Hio. discriminate.
Qed.



(** ** Shutdown *)

Lemma countdown_app (from : Z) (a b : nat) :
  countdown from (a + b) = countdown from a ++ countdown (from - Z.of_nat a) b.
Proof.
  revert from. induction a as [|a IH]; intros from; simpl.
  - by rewrite Z.sub_0_r.
  - rewrite IH. do 3 f_equal. lia.
Qed.

Lemma thread_stops_fields (t : Z) (s : IOManager) :
  let v := m_yet_to_stop_nthreads s - 1 in
  let s' := thread_stops t s in
  m_yet_to_stop_nthreads s' = v /\
  m_global_timer s' = m_global_timer s /\
  m_state s' = (if decide (v = 0) then stopped else m_state s) /\
  history s' = history s ++ ActDecStop v :: (if decide (v = 0) then [ActSetState stopped]
                                             else []).
Proof.
  unfold thread_stops. rewrite access_specific_thread_unit.
  unfold io_thread_stopped, yet_to_stop_decrement_testz; simpl.
  case_bool_decide; case_decide; try done; simpl.
  by rewrite <- app_assoc.
Qed.

(** While the latch stays above zero, exits only count it down. *)
Lemma exits_before_latch (ns : list Z) (s : IOManager) :
  Z.of_nat (length ns) < m_yet_to_stop_nthreads s ->
  let s' := run_env (exits ns) s in
  m_yet_to_stop_nthreads s' = m_yet_to_stop_nthreads s - Z.of_nat (length ns) /\
  m_global_timer s' = m_global_timer s /\
  m_state s' = m_state s /\
  history s' = history s ++ countdown (m_yet_to_stop_nthreads s) (length ns).
Proof.
  revert s. induction ns as [|t ns IH]; intros s Hlt; simpl.
  - rewrite Z.sub_0_r, app_nil_r. done.
  - simpl in Hlt.
    destruct (thread_stops_fields t s) as (Hc & Ht & Hs & Hh).
    rewrite decide_False in Hs by lia. rewrite decide_False in Hh by lia.
    destruct (IH (thread_stops t s)) as (Hc' & Ht' & Hs' & Hh'); [lia|].
    unfold exits, run_env in *. simpl in *.
    rewrite Hc', Ht', Hs', Hh', Hc, Ht, Hs, Hh, <- app_assoc. simpl.
    repeat split; try done. lia.
Qed.

(** The exit that takes the latch to zero sets [stopped] and wakes [stop]. *)
Lemma exits_release_latch (ns : list Z) (s : IOManager) :
  ns <> [] ->
  m_state s <> stopped ->
  m_yet_to_stop_nthreads s = Z.of_nat (length ns) ->
  exists s',
    wait_to_be_stopped (exits ns) s = Returns s' /\
    m_state s' = stopped /\
    m_yet_to_stop_nthreads s' = 0 /\
    m_global_timer s' = m_global_timer s /\
    history s' = history s ++ countdown (m_yet_to_stop_nthreads s) (length ns)
                   ++ [ActSetState stopped].
Proof.
  revert s. induction ns as [|t ns IH]; intros s Hne Hst Hc; [done|].
  unfold wait_to_be_stopped, exits. simpl.
  rewrite bool_decide_eq_false_2 by done.
  destruct (thread_stops_fields t s) as (Hc1 & Ht1 & Hs1 & Hh1).
  simpl in Hc. destruct ns as [|u ns].
  - simpl in *. rewrite decide_True in Hs1 by lia. rewrite decide_True in Hh1 by lia.
    exists (thread_stops t s).
    rewrite bool_decide_eq_true_2 by done.
    split; [done|]. split; [done|]. split; [lia|]. split; [done|]. exact Hh1.
  - rewrite decide_False in Hs1 by (simpl in *; lia).
    rewrite decide_False in Hh1 by (simpl in *; lia).
    destruct (IH (thread_stops t s)) as (s' & Hw & Hs' & Hc' & Ht' & Hh').
    + done.
    + by rewrite Hs1.
    + rewrite Hc1. simpl in *. lia.
    + exists s'. unfold wait_to_be_stopped, exits in Hw. split; [exact Hw|].
      split; [done|]. split; [done|]. split; [congruence|].
      rewrite Hh', Hh1, Hc1, <- app_assoc. reflexivity.
Qed.

Lemma stop_with_exits (early late : list Z) (s : IOManager) :
  m_yet_to_stop_nthreads s = Z.of_nat (length early + length late) ->
  exists s',
    stop (exits early) (exits late) s = Returns s' /\
    m_state s' = stopped /\
    m_iface_list s' = [] /\
    m_drive_ifaces s' = [] /\
    m_global_timer s' = None /\
    m_yet_to_stop_nthreads s' = 0 /\
    history s' =
      history s
      ++ [ActSetState stopping; ActIncStop (m_yet_to_stop_nthreads s + 1)]
      ++ flat_map (spec_delivery_actions relinquish)
           (List.filter msg_eligible (m_thread_ctx s))
      ++ [ActNullTimer]
      ++ countdown (m_yet_to_stop_nthreads s + 1) (length early + 1 + length late)
      ++ [ActSetState stopped].
Proof.
  intros Hlatch. unfold stop.
  rewrite send_msg_eq. unfold send_targets. rewrite decide_True by done.
  cbn [fst snd].
  set (s1 := record_action ActNullTimer (with_m_global_timer None _)).
  assert (m_yet_to_stop_nthreads s1 = m_yet_to_stop_nthreads s + 1) as Hc1 by done.
  assert (m_state s1 = stopping) as Hs1 by done.
  assert (m_global_timer s1 = None) as Ht1 by done.
  assert (history s1 =
            history s
            ++ [ActSetState stopping; ActIncStop (m_yet_to_stop_nthreads s + 1)]
            ++ flat_map (spec_delivery_actions relinquish)
                 (List.filter msg_eligible (m_thread_ctx s))
            ++ [ActNullTimer]) as Hh1.
  { subst s1. simpl. by rewrite <- !app_assoc. }
  destruct (exits_before_latch early s1) as (Hc2 & Ht2 & Hs2 & Hh2); [lia|].
  set (s2 := run_env (exits early) s1) in *.
  unfold yet_to_stop_decrement_testz.
  set (s3 := record_action _ _).
  assert (m_yet_to_stop_nthreads s3 = Z.of_nat (length late)) as Hc3.
  { subst s3. simpl. lia. }
  assert (history s3 = history s1
            ++ countdown (m_yet_to_stop_nthreads s + 1) (length early + 1)) as Hh3.
  { subst s3. simpl. rewrite Hh2, countdown_app, Hc1, <- app_assoc. simpl.
    do 4 f_equal. lia. }
  assert (m_state s3 = stopping) as Hs3 by (subst s3; simpl; congruence).
  assert (m_global_timer s3 = None) as Ht3 by (subst s3; simpl; congruence).
  assert (exists s4,
    (if bool_decide (m_yet_to_stop_nthreads s2 - 1 = 0)
     then Returns (set_state stopped s3) else wait_to_be_stopped (exits late) s3)
      = Returns s4 /\
    m_state s4 = stopped /\ m_yet_to_stop_nthreads s4 = 0 /\ m_global_timer s4 = None /\
    history s4 = history s3 ++ countdown (Z.of_nat (length late)) (length late)
                   ++ [ActSetState stopped]) as (s4 & -> & Hs4 & Hc4 & Ht4 & Hh4).
  { destruct late as [|t late].
    - rewrite bool_decide_eq_true_2 by (simpl in *; lia).
      exists (set_state stopped s3). split; [done|]. split; [done|].
      split; [done|]. split; [done|]. reflexivity.
    - rewrite bool_decide_eq_false_2 by (simpl in *; lia).
      destruct (exits_release_latch (t :: late) s3) as (s4 & Hw & Hs4 & Hc4 & Ht4 & Hh4).
      + done.
      + by rewrite Hs3.
      + done.
      + exists s4. split; [done|]. split; [done|]. split; [done|].
        split; [congruence|]. by rewrite Hh4, Hc3. }
  simpl. rewrite decide_True by done.
  eexists. split; [reflexivity|]. simpl.
  split; [done|]. split; [done|]. split; [done|]. split; [done|]. split; [done|].
  rewrite Hh4, Hh3, Hh1, <- !app_assoc. simpl. do 3 f_equal.
  do 2 f_equal.
  rewrite (countdown_app _ (length early + 1) (length late)), <- app_assoc.
  do 3 f_equal. lia.
Qed.




(** ** The drive submission pool *)

Lemma async_io_accounted (answer : AioDrive.submit_result) (cookie sync_result : Z)
    (c : AioDrive.aio_thread_context) :
  AioDrive.pool_accounted c ->
  AioDrive.pool_accounted (AioDrive.async_io answer cookie sync_result c).
Proof.
  unfold AioDrive.pool_accounted, AioDrive.async_io. intros H.
  destruct (AioDrive.iocb_list c) as [|info rest] eqn:E; simpl; [done|].
  destruct answer; simpl; try done.
  rewrite map_app. simpl. rewrite <- H.
  rewrite (Permutation_app_comm (List.map fst (AioDrive.ioctx c)) [info]). simpl.
  by rewrite Permutation_middle.
Qed.

Lemma process_completions_accounted (tokens ready : nat) (result : AioDrive.iocb_ptr -> Z)
    (c : AioDrive.aio_thread_context) :
  AioDrive.pool_accounted c ->
  AioDrive.pool_accounted (AioDrive.process_completions tokens ready result c).
Proof.
  unfold AioDrive.pool_accounted, AioDrive.process_completions. intros H.
  destruct tokens as [|k]; simpl; [done|].
  set (n := Nat.min ready AioDrive.MAX_COMPLETIONS).
  rewrite <- H.
  rewrite <- (take_drop n (AioDrive.ioctx c)) at 3.
  rewrite map_app, <- Permutation_rev.
  rewrite (Permutation_app_comm (List.map fst (take n (AioDrive.ioctx c)))
             (AioDrive.iocb_list c)).
  by rewrite <- app_assoc.
Qed.

Lemma drive_run_accounted (ops : list AioDrive.drive_op) (c : AioDrive.aio_thread_context) :
  AioDrive.pool_accounted c -> AioDrive.pool_accounted (AioDrive.drive_run ops c).
Proof.
  revert c. induction ops as [|op ops IH]; intros c H; simpl; [done|].
  apply IH. destruct op; simpl.
  - by apply async_io_accounted.
  - by apply process_completions_accounted.
Qed.

(** C7.  The free stack starts with exactly [MAX_OUTSTANDING_IO = 200]
    control blocks.  After any run of submissions and completion harvests,
    every block of the pool is on the free stack or in flight and on one of
    them only, so the two sizes add up to [MAX_OUTSTANDING_IO] and at most
    that many submissions are outstanding.  A submission that finds the free
    stack empty is done synchronously: it is counted, its completion is
    reported, and the pool is as before. *)
Theorem drive_pool_is_fixed (ops : list AioDrive.drive_op) :
  let c := AioDrive.drive_run ops AioDrive.on_io_thread_start in
  AioDrive.MAX_OUTSTANDING_IO = 200%nat /\
  length (AioDrive.iocb_list AioDrive.on_io_thread_start) = AioDrive.MAX_OUTSTANDING_IO /\
  AioDrive.ioctx AioDrive.on_io_thread_start = [] /\
  AioDrive.pool_accounted c /\
  (length (AioDrive.iocb_list c) + length (AioDrive.ioctx c))%nat
    = AioDrive.MAX_OUTSTANDING_IO /\
  (length (AioDrive.ioctx c) <= AioDrive.MAX_OUTSTANDING_IO)%nat /\
  (AioDrive.iocb_list c = [] ->
   forall answer cookie sync_result,
     let c' := AioDrive.async_io answer cookie sync_result c in
     AioDrive.iocb_list c' = [] /\
     AioDrive.ioctx c' = AioDrive.ioctx c /\
     AioDrive.force_sync_io_empty_iocb c' = S (AioDrive.force_sync_io_empty_iocb c) /\
     AioDrive.sync_io_count c' = S (AioDrive.sync_io_count c) /\
     AioDrive.completions c' = AioDrive.completions c ++ [(cookie, sync_result)]).
Proof.
  intros c.
  assert (AioDrive.pool_accounted c) as Hacc.
  { apply drive_run_accounted.
    unfold AioDrive.pool_accounted, AioDrive.on_io_thread_start.
    cbn [AioDrive.iocb_list AioDrive.ioctx List.map]. by rewrite app_nil_r. }
  assert ((length (AioDrive.iocb_list c) + length (AioDrive.ioctx c))%nat
          = AioDrive.MAX_OUTSTANDING_IO) as Hsum.
  { unfold AioDrive.pool_accounted in Hacc. apply Permutation_length in Hacc.
    rewrite length_app, length_map, length_seq in Hacc. exact Hacc. }
  split; [done|]. split; [vm_compute; reflexivity|]. split; [done|].
  split; [exact Hacc|]. split; [exact Hsum|]. split; [lia|].
  intros Hempty answer cookie sync_result. unfold AioDrive.async_io.
  by rewrite Hempty.
Qed.

(** Two hundred accepted submissions use the pool up, and the next one is
    done synchronously. *)
Lemma drive_pool_is_fixed_witness :
  AioDrive.iocb_list
    (AioDrive.drive_run (repeat (AioDrive.AsyncIo AioDrive.SubmitOk 7 4096) 200)
       AioDrive.on_io_thread_start) = [] /\
  AioDrive.force_sync_io_empty_iocb
    (AioDrive.async_io AioDrive.SubmitOk 8 512
       (AioDrive.drive_run (repeat (AioDrive.AsyncIo AioDrive.SubmitOk 7 4096) 200)
          AioDrive.on_io_thread_start)) = 1%nat.
Proof.
  pose proof (drive_pool_is_fixed (repeat (AioDrive.AsyncIo AioDrive.SubmitOk 7 4096) 200))
    as H.
  cbv zeta in H. destruct H as (_ & _ & _ & _ & _ & _ & Hsync).
  assert (AioDrive.iocb_list
            (AioDrive.drive_run (repeat (AioDrive.AsyncIo AioDrive.SubmitOk 7 4096) 200)
               AioDrive.on_io_thread_start) = []) as Hempty by (vm_compute; reflexivity).
  split; [exact Hempty|].
  destruct (Hsync Hempty AioDrive.SubmitOk 8 512) as (_ & _ & Hc & _).
  rewrite Hc. vm_compute. reflexivity.
Defined.

(** ** The properties on the scenarios *)

Lemma map_insert_new_lookup (k : Z) (p : fd_ptr) (m : gmap Z fd_ptr) :
  m !! k = None -> map_insert_new k p m !! k = Some p.
Proof. intros H. unfold map_insert_new. rewrite H. apply lookup_insert_eq. Qed.


(** With no live io thread at all [stop] returns as well. *)
Lemma stop_without_threads :
  exists s', stop [] [] scenario_cold_start = Returns s' /\ m_state s' = stopped.
Proof.
  destruct (stop_with_exits [] [] scenario_cold_start)
    as (s' & Hs & Hst & _); [vm_compute; reflexivity|].
  exists s'. split; [exact Hs|exact Hst].
Qed.

Lemma add_interface_advances_at_expected_count_witness :
  m_state scenario_awaiting_interface = waiting_for_interfaces /\
  m_state (add_interface 7 scenario_awaiting_interface) = waiting_for_threads /\
  length (m_iomgr_threads (add_interface 7 scenario_awaiting_interface)) = 2%nat /\
  never_backwards waiting_for_interfaces
    (states_after_adds [7; 8; 9] scenario_awaiting_interface).
Proof.
  destruct (add_interface_advances_at_expected_count 7 scenario_awaiting_interface)
    as (_ & Hpos & _ & _ & Hrun).
  destruct Hpos as (Hst & Hth & _); [vm_compute; reflexivity|vm_compute; reflexivity|].
  split; [vm_compute; reflexivity|]. split; [exact Hst|].
  split; [rewrite Hth; vm_compute; reflexivity|].
  apply (Hrun (le_S 0 0 (le_n 0)) [7; 8; 9]).
Defined.

(** C2 as stated fails: after [stop], a registration that meets the expected
    count takes the manager from [stopped] back to [running], and a new
    [start] takes it back to the waiting states. *)
Lemma add_interface_after_stop_goes_back :
  exists s2,
    stop [] [] scenario_cold_start = Returns s2 /\
    m_state s2 = stopped /\
    m_state (add_interface 7 s2) = running /\
    ~ never_backwards (m_state s2) (states_after_adds [7] s2) /\
    m_state (start 0 2 None 100 s2) = waiting_for_threads.
Proof.
  eexists. split; [vm_compute; reflexivity|].
  split; [vm_compute; reflexivity|]. split; [vm_compute; reflexivity|].
  split; [|vm_compute; reflexivity].
  intros [H _]. vm_compute in H. lia.
Qed.


Lemma remove_fd_by_state_witness :
  remove_fd 1 5 2%nat None scenario_awaiting_threads = Returns scenario_awaiting_threads.
Proof.
  destruct (remove_fd_by_state 1 5 2%nat None scenario_awaiting_threads) as (Hnoop & _).
  apply Hnoop; vm_compute; discriminate.
Defined.

Lemma send_msg_delivers_to_eligible_witness :
  fst (send_msg (-1) relinquish scenario_cold_start) = 0 /\
  snd (send_msg (-1) relinquish scenario_cold_start) = scenario_cold_start.
Proof.
  destruct (send_msg_delivers_to_eligible (-1) relinquish scenario_cold_start)
    as (_ & _ & _ & _ & _ & _ & _ & Hnone).
  apply Hnone. vm_compute. reflexivity.
Defined.


Lemma is_global_immutable_witness :
  fd_store scenario_torn_down !! 2%nat
    = Some (added_fd_info 5 77 0 EPOLLIN 3 0 false) /\
  is_global <$> fd_store scenario_torn_down !! 2%nat = Some true.
Proof.
  apply (is_global_immutable teardown scenario_registered scenario_torn_down 2%nat
           (added_fd_info 5 77 0 EPOLLIN 3 0 false)).
  - vm_compute. reflexivity.
  - vm_compute. reflexivity.
Defined.

Lemma add_fd_priority_is_argument_witness :
  exists x, fd_store scenario_registered !! 2%nat = Some x /\ pri x = 3 /\
            (0 <= pri x < MAX_PRI <-> 0 <= 3 < MAX_PRI).
Proof.
  apply (add_fd_priority_is_argument [] 1 5 77 0 EPOLLIN 3 0 false scenario_two_threads).
  vm_compute. reflexivity.
Defined.

(** C9 as stated fails: a registration with priority 10 makes a record with
    priority 10, outside [0, MAX_PRI). *)
Lemma add_fd_keeps_priority_ten :
  exists p s' x,
    _add_fd [] 1 5 77 0 EPOLLIN 10 0 true scenario_cold_start = Returns (p, s') /\
    fd_store s' !! p = Some x /\ pri x = 10 /\ ~ (0 <= pri x < MAX_PRI).
Proof.
  eexists _, _, _. split; [vm_compute; reflexivity|].
  split; [vm_compute; reflexivity|]. split; [reflexivity|].
  simpl. unfold MAX_PRI. lia.
Qed.

Lemma fd_to_info_needs_registered_fd_witness :
  fd_to_info 77 scenario_two_threads = Undefined /\
  fd_reschedule_fd [] 77 EPOLLIN scenario_two_threads = Undefined /\
  fd_to_info 77 scenario_registered = Returns 2%nat.
Proof.
  destruct (fd_to_info_needs_registered_fd 77 scenario_two_threads)
    as (Hundef & _ & Hresched).
  destruct (fd_to_info_needs_registered_fd 77 scenario_registered) as (_ & Hfound & _).
  split; [apply Hundef; vm_compute; reflexivity|].
  split; [apply Hresched; vm_compute; reflexivity|].
  apply Hfound. vm_compute. reflexivity.
Defined.
